(** * The peer-to-peer host of the broker: lifecycle, health status and dialing

    A shallow embedding of [apps/broker/internal/networking/host.go]
    ([Start], [Stop], [Status], [awaitStateInitialized], [isInitialized],
    [connectWithAllTrustedPeers], [connectWithAllPeers], [connectWithPeer],
    [connectToBootnodes]) together with the properties its specification
    states about them.

    The service is a Go struct mutated in place by its methods, and its
    methods call collaborators that live outside the file (the libp2p host,
    the discovery listener, the peer status store, the clock waiter, the
    package logger).  The embedding threads one [World] through a small
    state monad: the fields of the struct, the part of the peer status store
    the methods touch, and the trace of the calls that act on a collaborator,
    in the order the code makes them.  What a collaborator answers is a field
    of [Env]. *)

From stdpp Require Import base option list strings gmap vector.
From Stdlib Require Import ZArith Lia.

Local Open Scope Z_scope.

(** ** Errors

    Go's [error] is an interface value that may be nil: [option error].
    [errors.New] and [errors.Wrap] are those of github.com/pkg/errors. *)

Inductive error : Type :=
| ErrNew (msg : string)
| ErrWrap (cause : error) (msg : string).

#[global] Instance error_eq_dec : EqDecision error.
Proof. solve_decision. Defined.

Definition errors_New (msg : string) : option error := Some (ErrNew msg).

(** [errors.Wrap(nil, _)] is nil. *)
Definition errors_Wrap (err : option error) (msg : string) : option error :=
  match err with
  | None => None
  | Some e => Some (ErrWrap e msg)
  end.

(** The text [err.Error()] prints: a wrapped error puts its message first. *)
Fixpoint Error (e : error) : string :=
  match e with
  | ErrNew msg => msg
  | ErrWrap cause msg => msg +:+ ": " +:+ Error cause
  end.

(** [errors.Cause]: the innermost error of a chain of wraps. *)
Fixpoint Cause (e : error) : error :=
  match e with
  | ErrNew _ => e
  | ErrWrap cause _ => Cause cause
  end.

(** ** Data *)

(** [peer.ID] is a Go string type; a multiaddress is kept in its text form. *)
Abbreviation PeerID := string (only parsing).
Abbreviation Multiaddr := string (only parsing).

(** [peer.AddrInfo]. *)
Record AddrInfo : Type := mkAddrInfo {
  ID : PeerID;
  Addrs : list Multiaddr;
}.

#[global] Instance AddrInfo_eq_dec : EqDecision AddrInfo.
Proof. solve_decision. Defined.

(** [time.Time], as the seconds and nanoseconds since the zero instant. *)
Record Time : Type := mkTime {
  sec : Z;
  nsec : Z;
}.

(** [time.Time.IsZero]. *)
Definition IsZero (t : Time) : bool := (sec t =? 0) && (nsec t =? 0).

Definition zeroTime : Time := mkTime 0 0.

(** The clock handed over by the clock waiter; the root is a [[32]byte]. *)
Record Clock : Type := mkClock {
  GenesisTime : Time;
  GenesisValidatorsRoot : vec Byte.byte 32;
}.

(** [*enode.Node]: a parsed node record, kept by its name. *)
Abbreviation Node := string (only parsing).

(** The handle of a running discovery listener. *)
Abbreviation Listener := string (only parsing).

(** [time.Duration]: a signed 64-bit count of nanoseconds. *)
Definition wrap64 (z : Z) : Z := (z + 2 ^ 63) mod 2 ^ 64 - 2 ^ 63.
Definition Second : Z := 1000000000.
Definition Minute : Z := 60 * Second.

(** The fields of [Config] that the file reads. *)
Record Config : Type := mkConfig {
  NoDiscovery : bool;
  RelayNodeAddr : string;
  Discv5BootStrapAddrs : list string;
  StaticPeers : list string;
  HostAddress : string;
  HostDNS : string;
  TCPPort : Z;
  QUICPort : Z;
}.

(** Levels of the package logger. *)
Inductive Level : Type := LTrace | LDebug | LInfo | LError | LFatal.

(** The periodic functions handed to [async.RunEvery]. *)
Inductive Periodic : Type :=
| PEnsurePeerConnections (relayNodes : list string)
| PPrune
| PUpdateMetrics
| PRefreshPersistentSubnets
| PLogConnectedPeers.

(** The bodies of the [go] statements. *)
Inductive Goroutine : Type :=
| GoListenForNewNodes
| GoConnectWithPeer (info : AddrInfo)
| GoForkWatcher.

(** One entry per call that acts on a collaborator, in program order. *)
Inductive Event : Type :=
| EvLog (lvl : Level) (msg : string) (err : option error)
| EvWaitForClock
| EvCurrentForkDigest
| EvDialRelayNode (addr : string)
| EvStartDiscoveryV5
| EvListenerClose (l : Listener)
| EvCancel
| EvSetTrustedPeers (pids : list PeerID)
| EvPeersAdd (pid : PeerID) (addr : Multiaddr)
| EvIsBad (pid : PeerID)
| EvConnect (info : AddrInfo)
| EvIncrement (pid : PeerID)
| EvRefreshPersistentSubnets
| EvLogIPAddr
| EvLogExternalIPAddr (addr : string) (tcp quic : Z)
| EvVerifyConnectivity (addr : string) (port : Z) (proto : string)
| EvLogExternalDNSAddr (dns : string) (tcp : Z).

#[global] Instance Level_eq_dec : EqDecision Level.
Proof. solve_decision. Defined.
#[global] Instance Periodic_eq_dec : EqDecision Periodic.
Proof. solve_decision. Defined.
#[global] Instance Goroutine_eq_dec : EqDecision Goroutine.
Proof. solve_decision. Defined.
#[global] Instance Event_eq_dec : EqDecision Event.
Proof. solve_decision. Defined.

(** Modelled from the spec: the peer status store ([peers.Status], a package
    of the prysm dependency) is missing from the sources.  The spec names
    its interface: a trust set to which [SetTrustedPeers] adds, whose
    members [IsBad] never reports, a bad-response count per peer that
    [Increment] raises by one, and the records that [Add] creates. *)
Record Peers : Type := mkPeers {
  trustedPeers : list PeerID;
  badResponses : gmap string nat;
  records : list (PeerID * Multiaddr);
}.

Definition badResponseCount (p : Peers) (pid : PeerID) : nat :=
  default 0%nat (badResponses p !! pid).

Definition Peers_Increment (pid : PeerID) (p : Peers) : Peers :=
  mkPeers (trustedPeers p)
          (<[pid := S (badResponseCount p pid)]> (badResponses p))
          (records p).

Definition Peers_SetTrustedPeers (pids : list PeerID) (p : Peers) : Peers :=
  mkPeers (trustedPeers p ++ pids) (badResponses p) (records p).

Definition Peers_Add (pid : PeerID) (addr : Multiaddr) (p : Peers) : Peers :=
  mkPeers (trustedPeers p) (badResponses p) (records p ++ [(pid, addr)]).

Definition emptyPeers : Peers := mkPeers [] ∅ [].

(** ** The service and its surroundings *)

(** The struct fields the methods read and write, the peer status store, and
    what the run has done so far: the calls made, the goroutines launched,
    the periodic functions registered. *)
Record World : Type := mkWorld {
  started : bool;
  isPreGenesis : bool;
  startupErr : option error;
  genesisTime : Time;
  genesisValidatorsRoot : list Byte.byte;
  dv5Listener : option Listener;
  peers : Peers;
  trace : list Event;
  goroutines : list Goroutine;
  periodics : list (Z * Periodic);
}.

(** What the collaborators answer.  An answer that depends on the network or
    on the moment of the call takes the trace so far. *)
Record Env : Type := mkEnv {
  cfg : Config;
  hostID : PeerID;
  (* clock waiter, fork digest *)
  WaitForClock : list Event -> Clock + error;
  currentForkDigest : Time -> list Byte.byte -> option error;
  (* libp2p host and relay *)
  hostConnect : list Event -> AddrInfo -> option error;
  dialRelayNode : list Event -> string -> option error;
  (* discovery *)
  startDiscoveryV5 : list Event -> Listener + error;
  enodeParse : string -> Node + error;
  loadTCP : Node -> option error;
  enrIsNotFound : error -> bool;
  convertToMultiAddr : list Node -> list Multiaddr;
  (* addresses *)
  AddrInfosFromP2pAddrs : list Multiaddr -> list AddrInfo + error;
  PeersFromStringAddrs : list string -> list Multiaddr * option error;
  peerIdsFromMultiAddrs : list Multiaddr -> list PeerID;
  (* peer status store *)
  IsBad : Peers -> PeerID -> option error;
  (* construction *)
  privKey : option error;
  metaDataFromConfig : option error;
  configureFilter : option error;
  buildOptions : option error;
  libp2pNew : option error;
  (* constants of the chain configuration and of the package *)
  TtfbTimeoutDuration : Z;
  RespTimeout : Z;
  refreshRate : Z;
}.

(** ** The monad

    A method either returns a value and the world it leaves, or panics (an
    index out of range, a ticker with no period) in the world it had reached,
    or ends the process there (a log entry at fatal level). *)
Inductive Res (A : Type) : Type :=
| Ok (a : A) (w : World)
| Panic (w : World)
| Exit (w : World).
Arguments Ok {A} a w.
Arguments Panic {A} w.
Arguments Exit {A} w.

Definition M (A : Type) : Type := World -> Res A.

#[global] Instance M_ret : MRet M := fun A a w => Ok a w.
#[global] Instance M_bind : MBind M := fun A B f m w =>
  match m w with
  | Ok a w' => f a w'
  | Panic w' => Panic w'
  | Exit w' => Exit w'
  end.

Definition get : M World := fun w => Ok w w.
Definition modify (f : World -> World) : M unit := fun w => Ok tt (f w).
Definition panic {A} : M A := fun w => Panic w.
Definition exit {A} : M A := fun w => Exit w.

Definition emit (e : Event) : M unit :=
  modify (fun w => mkWorld (started w) (isPreGenesis w) (startupErr w)
                           (genesisTime w) (genesisValidatorsRoot w)
                           (dv5Listener w) (peers w) (trace w ++ [e])
                           (goroutines w) (periodics w)).

Definition go (g : Goroutine) : M unit :=
  modify (fun w => mkWorld (started w) (isPreGenesis w) (startupErr w)
                           (genesisTime w) (genesisValidatorsRoot w)
                           (dv5Listener w) (peers w) (trace w)
                           (goroutines w ++ [g]) (periodics w)).

(** [async.RunEvery] starts a ticker, and a ticker panics on a period that
    is not positive. *)
Definition RunEvery (d : Z) (p : Periodic) : M unit :=
  if d <=? 0 then panic else
  modify (fun w => mkWorld (started w) (isPreGenesis w) (startupErr w)
                           (genesisTime w) (genesisValidatorsRoot w)
                           (dv5Listener w) (peers w) (trace w)
                           (goroutines w) (periodics w ++ [(d, p)])).

Definition onPeers (f : Peers -> Peers) : M unit :=
  modify (fun w => mkWorld (started w) (isPreGenesis w) (startupErr w)
                           (genesisTime w) (genesisValidatorsRoot w)
                           (dv5Listener w) (f (peers w)) (trace w)
                           (goroutines w) (periodics w)).

Definition set_started (b : bool) : M unit :=
  modify (fun w => mkWorld b (isPreGenesis w) (startupErr w)
                           (genesisTime w) (genesisValidatorsRoot w)
                           (dv5Listener w) (peers w) (trace w)
                           (goroutines w) (periodics w)).

Definition set_isPreGenesis (b : bool) : M unit :=
  modify (fun w => mkWorld (started w) b (startupErr w)
                           (genesisTime w) (genesisValidatorsRoot w)
                           (dv5Listener w) (peers w) (trace w)
                           (goroutines w) (periodics w)).

Definition set_startupErr (e : option error) : M unit :=
  modify (fun w => mkWorld (started w) (isPreGenesis w) e
                           (genesisTime w) (genesisValidatorsRoot w)
                           (dv5Listener w) (peers w) (trace w)
                           (goroutines w) (periodics w)).

Definition set_genesis (t : Time) (root : list Byte.byte) : M unit :=
  modify (fun w => mkWorld (started w) (isPreGenesis w) (startupErr w)
                           t root
                           (dv5Listener w) (peers w) (trace w)
                           (goroutines w) (periodics w)).

Definition set_dv5Listener (l : option Listener) : M unit :=
  modify (fun w => mkWorld (started w) (isPreGenesis w) (startupErr w)
                           (genesisTime w) (genesisValidatorsRoot w)
                           l (peers w) (trace w)
                           (goroutines w) (periodics w)).

(** The world a run ends in, whether it returns, panics or ends the
    process. *)
Definition final {A} (r : Res A) : World :=
  match r with
  | Ok _ w => w
  | Panic w => w
  | Exit w => w
  end.

(** A call on the package logger (a logrus entry declared outside the file)
    below the fatal level: it writes one entry. *)
Definition log (lvl : Level) (msg : string) (err : option error) : M unit :=
  emit (EvLog lvl msg err).

(** [log.WithError(err).Fatal(msg)]: the entry is written and the process
    ends; the statements the source writes after the call are not reached. *)
Definition fatal (msg : string) (err : option error) : M unit :=
  emit (EvLog LFatal msg err) ;; exit.

Fixpoint forEach {A} (f : A -> M unit) (l : list A) : M unit :=
  match l with
  | [] => mret tt
  | x :: rest => f x ;; forEach f rest
  end.

Definition whenErr (err : option error) (f : error -> M unit) : M unit :=
  match err with
  | Some e => f e
  | None => mret tt
  end.

(** ** Health status *)

(** [isInitialized]. *)
Definition isInitialized (w : World) : bool :=
  negb (IsZero (genesisTime w)) &&
  Nat.eqb (length (genesisValidatorsRoot w)) 32.

(** [Status]. *)
Definition Status (w : World) : option error :=
  if isPreGenesis w then None
  else if negb (started w) then errors_New "not running"
  else match startupErr w with
       | Some e => Some e
       | None =>
           if IsZero (genesisTime w) then errors_New "no genesis time set"
           else None
       end.

(** [Started]. *)
Definition Started (w : World) : bool := started w.

(** [Stop]: the deferred [s.cancel()] runs last. *)
Definition Stop : M (option error) :=
  set_started false ;;
  w ← get ;
  match dv5Listener w with
  | Some l => emit (EvListenerClose l)
  | None => mret tt
  end ;;
  emit EvCancel ;;
  mret None.

Section Service.
Variable env : Env.

(** ** Dialing one peer *)

(** [s.Peers().IsBad(pid)]. *)
Definition Peers_IsBad (pid : PeerID) : M (option error) :=
  emit (EvIsBad pid) ;;
  w ← get ;
  mret (IsBad env (peers w) pid).

(** [s.host.Connect(ctx, info)]. *)
Definition host_Connect (info : AddrInfo) : M (option error) :=
  w ← get ;
  emit (EvConnect info) ;;
  mret (hostConnect env (trace w) info).

(** [s.Peers().Scorers().BadResponsesScorer().Increment(pid)]. *)
Definition BadResponsesScorer_Increment (pid : PeerID) : M unit :=
  emit (EvIncrement pid) ;;
  onPeers (Peers_Increment pid).

(** [connectWithPeer].  The tracing span and the dial timeout wrapped around
    the context leave no mark on the world. *)
Definition connectWithPeer (info : AddrInfo) : M (option error) :=
  if decide (ID info = hostID env) then mret None
  else
    bad ← Peers_IsBad (ID info) ;
    match bad with
    | Some err => mret (errors_Wrap (Some err) "refused to connect to bad peer")
    | None =>
        r ← host_Connect info ;
        match r with
        | Some err =>
            BadResponsesScorer_Increment (ID info) ;;
            mret (Some err)
        | None => mret None
        end
    end.

(** The body of the goroutine that both batch dialers launch per peer. *)
Definition dialGoroutine (info : AddrInfo) : M unit :=
  err ← connectWithPeer info ;
  whenErr err (fun e => log LTrace "Could not connect with peer %s" (Some e)).

(** ** Dialing a batch *)

(** [connectWithAllPeers]. *)
Definition connectWithAllPeers (multiAddrs : list Multiaddr) : M unit :=
  match AddrInfosFromP2pAddrs env multiAddrs with
  | inr err =>
      log LError "Could not convert to peer address info's from multiaddresses"
          (Some err)
  | inl addrInfos =>
      forEach (fun info => go (GoConnectWithPeer info)) addrInfos
  end.

(** [connectWithAllTrustedPeers]; [info.Addrs[0]] panics on an empty slice. *)
Definition connectWithAllTrustedPeers (multiAddrs : list Multiaddr) : M unit :=
  match AddrInfosFromP2pAddrs env multiAddrs with
  | inr err =>
      log LError "Could not convert to peer address info's from multiaddresses"
          (Some err)
  | inl addrInfos =>
      forEach (fun info =>
                 match Addrs info with
                 | [] => panic
                 | a :: _ =>
                     emit (EvPeersAdd (ID info) a) ;;
                     onPeers (Peers_Add (ID info) a)
                 end ;;
                 go (GoConnectWithPeer info))
              addrInfos
  end.

(** The loop of [connectToBootnodes]: [nodes] is the slice built so far, and
    [inr err] is the early [return err]. *)
Fixpoint resolveBootnodes (addrs : list string) (nodes : list Node)
  : M (list Node + error) :=
  match addrs with
  | [] => mret (inl nodes)
  | addr :: rest =>
      match enodeParse env addr with
      | inr err => mret (inr err)
      | inl bootNode =>
          match loadTCP env bootNode with
          | Some err =>
              (if negb (enrIsNotFound env err)
               then log LError "Could not retrieve tcp port" (Some err)
               else mret tt) ;;
              resolveBootnodes rest nodes
          | None => resolveBootnodes rest (nodes ++ [bootNode])
          end
      end
  end.

(** [connectToBootnodes]. *)
Definition connectToBootnodes : M (option error) :=
  r ← resolveBootnodes (Discv5BootStrapAddrs (cfg env)) [] ;
  match r with
  | inr err => mret (Some err)
  | inl nodes =>
      connectWithAllPeers (convertToMultiAddr env nodes) ;;
      mret None
  end.

(** ** The genesis gate *)

(** [awaitStateInitialized].  The initialization lock is held from entry to
    return; the model runs one caller at a time.  When the clock waiter
    answers an error the process ends at the fatal log; the clock the source
    would go on to read is nil there. *)
Definition awaitStateInitialized : M unit :=
  w ← get ;
  if isInitialized w then mret tt
  else
    emit EvWaitForClock ;;
    clock ← match WaitForClock env (trace w) with
            | inr e =>
                fatal "failed to receive initial genesis data" (Some e) ;;
                panic
            | inl clock => mret clock
            end ;
    set_genesis (GenesisTime clock) (vec_to_list (GenesisValidatorsRoot clock)) ;;
    w' ← get ;
    emit EvCurrentForkDigest ;;
    whenErr (currentForkDigest env (genesisTime w') (genesisValidatorsRoot w'))
      (fun e => log LError "Could not initialize fork digest" (Some e)).

(** ** Start *)

(** The relay step of [Start]; its value is [relayNodes]. *)
Definition dialRelay : M (list string) :=
  if decide (RelayNodeAddr (cfg env) = "") then mret []
  else
    w ← get ;
    emit (EvDialRelayNode (RelayNodeAddr (cfg env))) ;;
    whenErr (dialRelayNode env (trace w) (RelayNodeAddr (cfg env)))
      (fun e => log LError "Could not dial relay node" (Some e)) ;;
    mret [RelayNodeAddr (cfg env)].

(** The discovery step of [Start]; [false] is one of its two [return]s, the
    first of which comes after a fatal log. *)
Definition startDiscovery : M bool :=
  if NoDiscovery (cfg env) then mret true
  else
    w ← get ;
    emit EvStartDiscoveryV5 ;;
    match startDiscoveryV5 env (trace w) with
    | inr err =>
        fatal "Failed to start discovery" (Some err) ;;
        set_startupErr (Some err) ;;
        mret false
    | inl listener =>
        berr ← connectToBootnodes ;
        match berr with
        | Some err =>
            log LError "Could not connect to boot nodes" (Some err) ;;
            set_startupErr (Some err) ;;
            mret false
        | None =>
            set_dv5Listener (Some listener) ;;
            go GoListenForNewNodes ;;
            mret true
        end
    end.

(** The static peers step of [Start]. *)
Definition dialStaticPeers : M unit :=
  if (0 <? length (StaticPeers (cfg env)))%nat then
    let '(addrs, err) := PeersFromStringAddrs env (StaticPeers (cfg env)) in
    whenErr err (fun e =>
      log LError "could not convert ENR to multiaddr" (Some e)) ;;
    let pids := peerIdsFromMultiAddrs env addrs in
    emit (EvSetTrustedPeers pids) ;;
    onPeers (Peers_SetTrustedPeers pids) ;;
    connectWithAllTrustedPeers addrs
  else mret tt.

(** The periodic functions of [Start], in the order it registers them. *)
Definition registerPeriodics (relayNodes : list string) : M unit :=
  RunEvery (TtfbTimeoutDuration env) (PEnsurePeerConnections relayNodes) ;;
  RunEvery (30 * Minute) PPrune ;;
  RunEvery (wrap64 (wrap64 (RespTimeout env) * Second)) PUpdateMetrics ;;
  RunEvery (refreshRate env) PRefreshPersistentSubnets ;;
  RunEvery (1 * Minute) PLogConnectedPeers.

(** The address logging at the end of [Start]. *)
Definition logAddresses : M unit :=
  emit EvLogIPAddr ;;
  (if decide (HostAddress (cfg env) = "") then mret tt
   else
     emit (EvLogExternalIPAddr (HostAddress (cfg env)) (TCPPort (cfg env))
                               (QUICPort (cfg env))) ;;
     emit (EvVerifyConnectivity (HostAddress (cfg env)) (TCPPort (cfg env))
                                "tcp")) ;;
  (if decide (HostDNS (cfg env) = "") then mret tt
   else emit (EvLogExternalDNSAddr (HostDNS (cfg env)) (TCPPort (cfg env)))).

(** [Start] up to the discovery step: the genesis gate, the end of the
    pre-genesis phase, the relay. *)
Definition startPrelude : M (list string) :=
  awaitStateInitialized ;;
  set_isPreGenesis false ;;
  dialRelay.

(** [Start] from [s.started = true] on: the running phase. *)
Definition startRunning (relayNodes : list string) : M unit :=
  set_started true ;;
  dialStaticPeers ;;
  emit EvRefreshPersistentSubnets ;;
  registerPeriodics relayNodes ;;
  logAddresses ;;
  go GoForkWatcher.

(** [Start]. *)
Definition Start : M unit :=
  w ← get ;
  if started w then
    log LError "Attempted to start p2p service when it was already started" None
  else
    relayNodes ← startPrelude ;
    proceed ← startDiscovery ;
    match proceed with
    | false => mret tt
    | true => startRunning relayNodes
    end.

(** ** Construction *)

(** The service as [NewHost] leaves it, with the empty peer status store
    that the rest of the package installs: [NewHost] itself assigns none. *)
Definition newWorld : World :=
  mkWorld false true None zeroTime [] None emptyPeers [] [] [].

(** [NewHost]: the log entries written, and the service or the error. *)
Definition NewHost : list Event * (World + error) :=
  match privKey env with
  | Some err => ([], inr (ErrWrap err "failed to generate p2p private key"))
  | None =>
  match metaDataFromConfig env with
  | Some err =>
      ([EvLog LError "Failed to create peer metadata" (Some err)], inr err)
  | None =>
  match configureFilter env with
  | Some err =>
      ([EvLog LError "Failed to create address filter" (Some err)], inr err)
  | None =>
  match buildOptions env with
  | Some err => ([], inr (ErrWrap err "failed to build p2p options"))
  | None =>
  match libp2pNew env with
  | Some err => ([], inr (ErrWrap err "failed to create p2p host"))
  | None => ([], inl newWorld)
  end end end end end.

End Service.

(** ** What the specification says is dialed *)

(** The goroutines [connectWithAllPeers] launches for a list of addresses. *)
Definition dialsFor (env : Env) (multiAddrs : list Multiaddr) : list Goroutine :=
  match AddrInfosFromP2pAddrs env multiAddrs with
  | inl addrInfos => map GoConnectWithPeer addrInfos
  | inr _ => []
  end.

(** The specification's reading of bootstrap resolution, to compare with
    [resolveBootnodes]: of the entries that parse, the node records that
    carry a TCP port, in the order of the configuration. *)
Definition parsedBootnodes (env : Env) (addrs : list string) : list Node :=
  omap (fun addr => match enodeParse env addr with
                    | inl n => Some n
                    | inr _ => None
                    end) addrs.

Definition carriesTCP (env : Env) (n : Node) : bool :=
  match loadTCP env n with
  | None => true
  | Some _ => false
  end.

Definition dialableBootnodes (env : Env) (addrs : list string) : list Node :=
  filter (fun n => carriesTCP env n = true) (parsedBootnodes env addrs).

(** The error of the first configured entry that does not parse. *)
Fixpoint firstParseError (env : Env) (addrs : list string) : option error :=
  match addrs with
  | [] => None
  | addr :: rest =>
      match enodeParse env addr with
      | inr err => Some err
      | inl _ => firstParseError env rest
      end
  end.

(** The log entry of a record without a usable TCP entry. *)
Definition isTCPLog (e : Event) : bool :=
  match e with
  | EvLog LError "Could not retrieve tcp port" (Some _) => true
  | _ => false
  end.

(** ** Sample surroundings, for running the model *)

Definition sampleRoot : vec Byte.byte 32 := vreplicate 32 Byte.x2a.

Definition sampleClock : Clock := mkClock (mkTime 1606824023 0) sampleRoot.

Definition sampleConfig (boot static : list string) : Config :=
  mkConfig false "" boot static "" "" 13000 13000.

Definition sampleParse (addr : string) : Node + error :=
  if String.prefix "enr:" addr then inl addr
  else inr (ErrNew "invalid URL scheme").

Definition sampleLoadTCP (n : Node) : option error :=
  if decide (n = "enr:udp-only") then Some (ErrNew "missing ENR key") else None.

Definition sampleIsNotFound (e : error) : bool :=
  bool_decide (e = ErrNew "missing ENR key").

Definition sampleInfo (a : Multiaddr) : AddrInfo := mkAddrInfo a [a].

Definition sampleEnv (c : Config)
    (isbad : Peers -> PeerID -> option error)
    (conn : list Event -> AddrInfo -> option error)
    (disc : list Event -> Listener + error) : Env :=
  mkEnv c "self"
        (fun _ => inl sampleClock) (fun _ _ => None)
        conn (fun _ _ => None)
        disc sampleParse sampleLoadTCP sampleIsNotFound (fun nodes => nodes)
        (fun addrs => inl (map sampleInfo addrs))
        (fun addrs => (addrs, None)) (fun addrs => addrs)
        isbad
        None None None None None
        (5 * Second) 10 (12 * Second).

(** A peer status store that calls one peer bad, unless it is trusted. *)
Definition badIs (bad : PeerID) (p : Peers) (pid : PeerID) : option error :=
  if decide (pid ∈ trustedPeers p) then None
  else if decide (pid = bad)
       then Some (ErrNew "peer exceeded bad responses threshold")
       else None.


Definition neverBad (_ : Peers) (_ : PeerID) : option error := None.

Definition reachable (_ : list Event) (_ : AddrInfo) : option error := None.

Definition unreachable (_ : list Event) (_ : AddrInfo) : option error :=
  Some (ErrNew "dial backoff").

Definition discoveryUp (_ : list Event) : Listener + error := inl "discv5".

Definition discoveryDown (_ : list Event) : Listener + error :=
  inr (ErrNew "listen udp: address already in use").

(** The surroundings the examples run in. *)
Definition envBootMixed : Env :=
  sampleEnv (sampleConfig ["enr:a"; "enr:udp-only"; "enr:b"] [])
            neverBad reachable discoveryUp.

Definition envBootMalformed : Env :=
  sampleEnv (sampleConfig ["enr:a"; "garbage"; "enr:b"] [])
            neverBad reachable discoveryUp.



Definition envSelfBad : Env :=
  sampleEnv (sampleConfig [] []) (badIs "self") reachable discoveryUp.

Definition envMallory : Env :=
  sampleEnv (sampleConfig [] []) (badIs "mallory") reachable discoveryUp.

Definition envUnreachable : Env :=
  sampleEnv (sampleConfig [] []) neverBad unreachable discoveryUp.


(** The world with one more entry, or several, on its trace. *)
Definition traced (w : World) (evs : list Event) : World :=
  mkWorld (started w) (isPreGenesis w) (startupErr w) (genesisTime w)
          (genesisValidatorsRoot w) (dv5Listener w) (peers w)
          (trace w ++ evs) (goroutines w) (periodics w).

(** The world with more goroutines launched. *)
Definition launched (w : World) (gs : list Goroutine) : World :=
  mkWorld (started w) (isPreGenesis w) (startupErr w) (genesisTime w)
          (genesisValidatorsRoot w) (dv5Listener w) (peers w)
          (trace w) (goroutines w ++ gs) (periodics w).

(** ** The rest of the service *)

Section Discovery.
(** [enr.Record], and what the listener says about the local node. *)
Variable NodeRecord : Type.
Variable selfRecord : Listener -> NodeRecord.
Variable convertToUdpMultiAddr : Listener -> list Multiaddr * option error.
(** [s.peers.Connected()]. *)
Variable connected : Peers -> list PeerID.

(** [ENR]. *)
Definition ENR (w : World) : option NodeRecord :=
  match dv5Listener w with
  | None => None
  | Some l => Some (selfRecord l)
  end.

(** [DiscoveryAddresses]; a nil slice is the empty list. *)
Definition DiscoveryAddresses (w : World) : list Multiaddr * option error :=
  match dv5Listener w with
  | None => ([], None)
  | Some l => convertToUdpMultiAddr l
  end.

(** The body of the goroutine [pingPeersAndLogEnr] launches per peer. *)
Definition pingGoroutine (pingMethod : PeerID -> option error) (pid : PeerID)
  : M unit :=
  whenErr (pingMethod pid)
    (fun e => log LDebug "Failed to ping peer" (Some e)).

(** [pingPeersAndLogEnr], given the registered ping method if there is one.
    Its value lists the peers for which it launches a ping goroutine.  The
    call [s.dv5Listener.Self()] on a nil listener panics. *)
Definition pingPeersAndLogEnr (pingMethod : option (PeerID -> option error))
  : M (list PeerID) :=
  w ← get ;
  match dv5Listener w with
  | None => panic
  | Some l =>
      log LInfo "New node record" None ;;
      match pingMethod with
      | None => mret []
      | Some _ => mret (connected (peers w))
      end
  end.

End Discovery.

(** The dial goroutines of a batch, run one at a time in the order given. *)
Definition runDials (env : Env) (infos : list AddrInfo) : M unit :=
  forEach (dialGoroutine env) infos.

(** A supervisor's calls on the service; collaborators may answer differently
    from one [Start] to the next.  A panic ends the sequence. *)
Inductive Op : Type :=
| OpStart (env : Env)
| OpStop.

Fixpoint runOps (ops : list Op) : M unit :=
  match ops with
  | [] => mret tt
  | OpStart env :: rest => Start env ;; runOps rest
  | OpStop :: rest => Stop ;; runOps rest
  end.

(** The calls [connectWithPeer] makes. *)
Definition isPeerCall (e : Event) : bool :=
  match e with
  | EvIsBad _ | EvConnect _ | EvIncrement _ => true
  | _ => false
  end.

(** The dials: of a peer, and of the relay node. *)
Definition isDialEvent (e : Event) : bool :=
  match e with
  | EvConnect _ | EvDialRelayNode _ => true
  | _ => false
  end.

(** The genesis gate lets the caller through: the service is initialized, or
    the clock waiter hands over a clock. *)
Definition gatePasses (env : Env) (w : World) : Prop :=
  isInitialized w = true \/ exists clock, WaitForClock env (trace w) = inl clock.



(** The value of [relayNodes] in [Start]. *)
Definition relayNodesOf (env : Env) : list string :=
  if decide (RelayNodeAddr (cfg env) = "") then []
  else [RelayNodeAddr (cfg env)].

(** The periodic functions of a running service, with their intervals. *)
Definition schedule (env : Env) : list (Z * Periodic) :=
  [ (TtfbTimeoutDuration env, PEnsurePeerConnections (relayNodesOf env));
    (30 * Minute, PPrune);
    (wrap64 (wrap64 (RespTimeout env) * Second), PUpdateMetrics);
    (refreshRate env, PRefreshPersistentSubnets);
    (1 * Minute, PLogConnectedPeers) ].

(** The error of the first construction step of [NewHost] that fails. *)
Definition firstConstructionError (env : Env) : option error :=
  match privKey env with
  | Some err => Some err
  | None =>
  match metaDataFromConfig env with
  | Some err => Some err
  | None =>
  match configureFilter env with
  | Some err => Some err
  | None =>
  match buildOptions env with
  | Some err => Some err
  | None => libp2pNew env
  end end end end.

(** The log entries the bootstrap loop writes for a list of entries that all
    parse: one per record whose TCP entry fails to load for another reason
    than being absent. *)
Definition tcpLoadLogs (env : Env) (addrs : list string) : list Event :=
  omap (fun n => match loadTCP env n with
                 | Some err =>
                     if enrIsNotFound env err then None
                     else Some (EvLog LError "Could not retrieve tcp port"
                                      (Some err))
                 | None => None
                 end)
       (parsedBootnodes env addrs).

(** What [connectWithAllTrustedPeers] adds to the peer records. *)
Definition firstAddrs (infos : list AddrInfo) : list (PeerID * Multiaddr) :=
  omap (fun info => match Addrs info with
                    | [] => None
                    | a :: _ => Some (ID info, a)
                    end) infos.

Definition addEvents (infos : list AddrInfo) : list Event :=
  map (fun r => EvPeersAdd (fst r) (snd r)) (firstAddrs infos).

(** The world after the loop of [connectWithAllTrustedPeers] has gone through
    [infos]: a record and an [Add] call per peer, and its dial launched. *)
Definition withTrusted (w : World) (infos : list AddrInfo) : World :=
  mkWorld (started w) (isPreGenesis w) (startupErr w) (genesisTime w)
          (genesisValidatorsRoot w) (dv5Listener w)
          (mkPeers (trustedPeers (peers w)) (badResponses (peers w))
                   (records (peers w) ++ firstAddrs infos))
          (trace w ++ addEvents infos)
          (goroutines w ++ map GoConnectWithPeer infos)
          (periodics w).

(** The call that registers trusted peers. *)
Definition isSetTrusted (e : Event) : bool :=
  match e with
  | EvSetTrustedPeers _ => true
  | _ => false
  end.

(** The call that starts the discovery listener. *)
Definition isDiscoveryStart (e : Event) : bool :=
  match e with
  | EvStartDiscoveryV5 => true
  | _ => false
  end.

(** More sample surroundings. *)
Definition envNoDiscovery : Env :=
  sampleEnv (mkConfig true "/dns4/relay/tcp/4000" ["unused"] [] "" "" 13000 13000)
            neverBad reachable discoveryDown.

Definition envStatic : Env :=
  sampleEnv (sampleConfig [] ["peerA"; "peerB"; "peerC"])
            neverBad reachable discoveryUp.

(** A stopped service on which an earlier [Start] recorded a startup error. *)
Definition worldWithStartupErr : World :=
  mkWorld false false (Some (ErrNew "invalid URL scheme"))
          zeroTime [] None emptyPeers [] [] [].

(** The world with more periodic functions registered. *)
Definition registered (w : World) (ps : list (Z * Periodic)) : World :=
  mkWorld (started w) (isPreGenesis w) (startupErr w) (genesisTime w)
          (genesisValidatorsRoot w) (dv5Listener w) (peers w)
          (trace w) (goroutines w) (periodics w ++ ps).

(** Every interval [Start] hands to a ticker is positive; the two intervals
    it writes as constants are. *)
Definition intervalsPositive (env : Env) : Prop :=
  0 < TtfbTimeoutDuration env /\
  0 < wrap64 (wrap64 (RespTimeout env) * Second) /\
  0 < refreshRate env.

(** [neverPanics m]: [m] returns or ends the process. *)
Definition neverPanics {A} (m : M A) : Prop :=
  forall w, match m w with Panic _ => False | _ => True end.

(** [emitsOnly P m]: whatever [m] adds to the trace satisfies [P]. *)
Definition emitsOnly {A} (P : Event -> Prop) (m : M A) : Prop :=
  forall w, exists evs,
    trace (final (m w)) = trace w ++ evs /\ Forall P evs.

(** [preserves I m]: [m] keeps the invariant [I], however it ends. *)
Definition preserves {A} (I : World -> Prop) (m : M A) : Prop :=
  forall w, I w -> I (final (m w)).

(** ** Framing

    [keeps f m]: whatever [m] does, and whether it returns, panics or ends
    the process, the projection [f] of the world is what it was before. *)
Definition keeps {A B} (f : World -> B) (m : M A) : Prop :=
  forall w, f (final (m w)) = f w.

(** [returns m]: [m] neither panics nor ends the process. *)
Definition returns {A} (m : M A) : Prop :=
  forall w, exists a w', m w = Ok a w'.

(** * Properties *)

(** ** The monad *)

Lemma bind_Ok {A B} (m : M A) (k : A -> M B) w a w' :
  m w = Ok a w' -> (m ≫= k) w = k a w'.
Proof. intros H. unfold mbind, M_bind. now rewrite H. Qed.

Lemma bind_Panic {A B} (m : M A) (k : A -> M B) w w' :
  m w = Panic w' -> (m ≫= k) w = Panic w'.
Proof. intros H. unfold mbind, M_bind. now rewrite H. Qed.

Lemma bind_Exit {A B} (m : M A) (k : A -> M B) w w' :
  m w = Exit w' -> (m ≫= k) w = Exit w'.
Proof. intros H. unfold mbind, M_bind. now rewrite H. Qed.

Lemma bind_inv {A B} (m : M A) (k : A -> M B) w b w2 :
  (m ≫= k) w = Ok b w2 -> exists a w1, m w = Ok a w1 /\ k a w1 = Ok b w2.
Proof.
  unfold mbind, M_bind.
  destruct (m w) as [a w1|w1|w1]; [eauto | discriminate | discriminate].
Qed.

Lemma keeps_ret {A B} (f : World -> B) (a : A) : keeps f (mret a).
Proof. intros w. reflexivity. Qed.

Lemma keeps_bind {A B C} (f : World -> C) (m : M A) (k : A -> M B) :
  keeps f m -> (forall a, keeps f (k a)) -> keeps f (m ≫= k).
Proof.
  intros Hm Hk w. unfold mbind, M_bind.
  specialize (Hm w). destruct (m w) as [a w1|w1|w1]; cbn in *.
  - now rewrite Hk.
  - exact Hm.
  - exact Hm.
Qed.

Lemma keeps_get {B} (f : World -> B) : keeps f get.
Proof. intros w. reflexivity. Qed.

Lemma keeps_panic {A B} (f : World -> B) : keeps f (@panic A).
Proof. intros w. reflexivity. Qed.

Lemma keeps_exit {A B} (f : World -> B) : keeps f (@exit A).
Proof. intros w. reflexivity. Qed.

Lemma keeps_modify {B} (f : World -> B) (g : World -> World) :
  (forall w, f (g w) = f w) -> keeps f (modify g).
Proof. intros H w. apply H. Qed.

Lemma keeps_whenErr {B} (f : World -> B) err k :
  (forall e, keeps f (k e)) -> keeps f (whenErr err k).
Proof. intros H. destruct err; [apply H | apply keeps_ret]. Qed.

Lemma keeps_forEach {A B} (f : World -> B) (body : A -> M unit) l :
  (forall x, keeps f (body x)) -> keeps f (forEach body l).
Proof.
  intros H. induction l as [|x l IH]; cbn.
  - apply keeps_ret.
  - apply keeps_bind; [apply H | intros _; exact IH].
Qed.

Lemma returns_ret {A} (a : A) : returns (mret a).
Proof. intros w. now exists a, w. Qed.

Lemma returns_bind {A B} (m : M A) (k : A -> M B) :
  returns m -> (forall a, returns (k a)) -> returns (m ≫= k).
Proof.
  intros Hm Hk w. destruct (Hm w) as (a & w1 & E).
  rewrite (bind_Ok _ _ _ _ _ E). apply Hk.
Qed.

Lemma returns_get : returns get.
Proof. intros w. now exists w, w. Qed.

Lemma returns_modify g : returns (modify g).
Proof. intros w. now exists tt, (g w). Qed.

Lemma returns_whenErr err k :
  (forall e, returns (k e)) -> returns (whenErr err k).
Proof. intros H. destruct err; [apply H | apply returns_ret]. Qed.

Lemma returns_forEach {A} (body : A -> M unit) l :
  (forall x, returns (body x)) -> returns (forEach body l).
Proof.
  intros H. induction l as [|x l IH]; cbn.
  - apply returns_ret.
  - apply returns_bind; [apply H | intros _; exact IH].
Qed.

Create HintDb frame discriminated.

#[global] Hint Resolve keeps_ret keeps_get keeps_panic keeps_exit returns_ret
  returns_get returns_modify : frame.

(** One step into a method: through a bind, a loop, a branch, or down to a
    write of the world, which keeps every field it does not name. *)
Ltac frame_step :=
  match goal with
  | |- keeps _ (mbind _ _) => apply keeps_bind; [| intros ?]
  | |- returns (mbind _ _) => apply returns_bind; [| intros ?]
  | |- keeps _ (whenErr _ _) => apply keeps_whenErr; intros ?
  | |- returns (whenErr _ _) => apply returns_whenErr; intros ?
  | |- keeps _ (forEach _ _) => apply keeps_forEach; intros ?
  | |- returns (forEach _ _) => apply returns_forEach; intros ?
  | |- keeps _ (fatal _ _) => unfold fatal
  | |- keeps _ (RunEvery _ _) => unfold RunEvery
  | |- _ => solve [auto with frame]
  | |- _ (if ?b then _ else _) => destruct b
  | |- _ (match ?x with _ => _ end) => destruct x
  | |- keeps _ _ => apply keeps_modify; intros ?; reflexivity
  | |- returns _ => apply returns_modify
  end.

Ltac frame := cbv beta; repeat (frame_step; cbv beta).

(** Runs the straight-line part of a method on the world at hand. *)
Ltac run :=
  unfold mbind, M_bind, mret, M_ret, get, log, fatal, emit, go, RunEvery,
    onPeers, set_started, set_isPreGenesis, set_startupErr, set_genesis,
    set_dv5Listener, modify, panic, exit in *; cbn in *.

(** ** Dialing one peer *)

Lemma badResponseCount_Increment_eq p pid :
  badResponseCount (Peers_Increment pid p) pid = S (badResponseCount p pid).
Proof.
  unfold badResponseCount at 1, Peers_Increment; cbn.
  now rewrite lookup_insert_eq.
Qed.

Lemma badResponseCount_Increment_ne p pid other :
  other <> pid ->
  badResponseCount (Peers_Increment pid p) other = badResponseCount p other.
Proof.
  intros Hne. unfold badResponseCount at 1, Peers_Increment; cbn.
  rewrite lookup_insert_ne by congruence. reflexivity.
Qed.

(** The two exits of [connectWithPeer] that come before the dial. *)
Lemma connectWithPeer_self env info w :
  ID info = hostID env -> connectWithPeer env info w = Ok None w.
Proof.
  intros Hself. unfold connectWithPeer.
  destruct (decide (ID info = hostID env)) as [_|Hne]; [|contradiction].
  reflexivity.
Qed.

Lemma connectWithPeer_bad env info w e :
  ID info <> hostID env ->
  IsBad env (peers w) (ID info) = Some e ->
  connectWithPeer env info w
    = Ok (Some (ErrWrap e "refused to connect to bad peer"))
         (traced w [EvIsBad (ID info)]).
Proof.
  intros Hne Hbad. unfold connectWithPeer.
  destruct (decide (ID info = hostID env)) as [Heq|_]; [contradiction|].
  unfold Peers_IsBad. run. now rewrite Hbad.
Qed.

(** C6.  A connection attempt to the local identity does nothing: the call
    returns nil and leaves the world as it found it, so no entry ([EvConnect]
    in particular) is added to the trace; the goroutine that the batch
    dialers launch around it logs nothing either. *)
Theorem connectWithPeer_self_noop env info w :
  ID info = hostID env ->
  connectWithPeer env info w = Ok None w /\
  dialGoroutine env info w = Ok tt w.
Proof.
  intros Hself. split; [now apply connectWithPeer_self|].
  unfold dialGoroutine.
  erewrite bind_Ok by (now apply connectWithPeer_self). reflexivity.
Qed.

Lemma connectWithPeer_self_noop_witness :
  connectWithPeer envMallory (sampleInfo "self") newWorld = Ok None newWorld /\
  dialGoroutine envMallory (sampleInfo "self") newWorld = Ok tt newWorld.
Proof. apply connectWithPeer_self_noop. reflexivity. Defined.

(** C7.  When the peer is not the local identity, is not reported bad, and
    [host.Connect] answers an error, [connectWithPeer] returns that error,
    and on the way calls [Increment] for the peer exactly once: the peer's
    bad-response count is one more than before, the counts of all other peers
    are what they were. *)
Theorem connectWithPeer_dial_failure env info w e :
  ID info <> hostID env ->
  IsBad env (peers w) (ID info) = None ->
  hostConnect env (trace w ++ [EvIsBad (ID info)]) info = Some e ->
  exists w',
    connectWithPeer env info w = Ok (Some e) w' /\
    trace w' = trace w ++
      [EvIsBad (ID info); EvConnect info; EvIncrement (ID info)] /\
    badResponseCount (peers w') (ID info)
      = S (badResponseCount (peers w) (ID info)) /\
    (forall pid, pid <> ID info ->
       badResponseCount (peers w') pid = badResponseCount (peers w) pid).
Proof.
  intros Hne Hgood Hdial. unfold connectWithPeer.
  destruct (decide (ID info = hostID env)) as [Heq|_]; [contradiction|].
  unfold Peers_IsBad, host_Connect, BadResponsesScorer_Increment. run.
  rewrite Hgood. cbn. rewrite Hdial. cbn.
  eexists; split; [reflexivity|]. cbn. repeat split.
  - rewrite <- !app_assoc. reflexivity.
  - apply badResponseCount_Increment_eq.
  - intros pid Hpid. now apply badResponseCount_Increment_ne.
Qed.

Lemma connectWithPeer_dial_failure_witness :
  exists w',
    connectWithPeer envUnreachable (sampleInfo "carol") newWorld
      = Ok (Some (ErrNew "dial backoff")) w' /\
    trace w' = [EvIsBad "carol"; EvConnect (sampleInfo "carol");
                EvIncrement "carol"] /\
    badResponseCount (peers w') "carol" = 1%nat /\
    (forall pid, pid <> "carol" -> badResponseCount (peers w') pid = 0%nat).
Proof.
  apply (connectWithPeer_dial_failure envUnreachable (sampleInfo "carol")
           newWorld (ErrNew "dial backoff")).
  - cbn. discriminate.
  - reflexivity.
  - reflexivity.
Defined.

(** C5, as the code has it.  A peer other than the local identity that the
    peer status store reports bad is refused at once: the only call made is
    [IsBad], [host.Connect] is not invoked, no score changes, and the error
    returned wraps the store's error under "refused to connect to bad
    peer". *)
Theorem connectWithPeer_refuses_bad env info w e :
  ID info <> hostID env ->
  IsBad env (peers w) (ID info) = Some e ->
  connectWithPeer env info w
    = Ok (Some (ErrWrap e "refused to connect to bad peer"))
         (traced w [EvIsBad (ID info)]) /\
  Error (ErrWrap e "refused to connect to bad peer")
    = "refused to connect to bad peer: " +:+ Error e /\
  Cause (ErrWrap e "refused to connect to bad peer") = Cause e.
Proof.
  intros Hne Hbad. split; [now apply connectWithPeer_bad|]. split; reflexivity.
Qed.

Lemma connectWithPeer_refuses_bad_witness :
  connectWithPeer envMallory (sampleInfo "mallory") newWorld
    = Ok (Some (ErrWrap (ErrNew "peer exceeded bad responses threshold")
                        "refused to connect to bad peer"))
         (traced newWorld [EvIsBad "mallory"]) /\
  Error (ErrWrap (ErrNew "peer exceeded bad responses threshold")
                 "refused to connect to bad peer")
    = "refused to connect to bad peer: peer exceeded bad responses threshold" /\
  Cause (ErrWrap (ErrNew "peer exceeded bad responses threshold")
                 "refused to connect to bad peer")
    = ErrNew "peer exceeded bad responses threshold".
Proof.
  apply (connectWithPeer_refuses_bad envMallory (sampleInfo "mallory")
           newWorld (ErrNew "peer exceeded bad responses threshold")).
  - cbn. discriminate.
  - reflexivity.
Defined.

(** C5 as stated fails where the bad peer is the local identity: the store
    reports "self" bad, and the attempt is not refused but skipped, with no
    error. *)
Lemma connectWithPeer_bad_self_not_refused :
  IsBad envSelfBad (peers newWorld) (ID (sampleInfo "self"))
    = Some (ErrNew "peer exceeded bad responses threshold") /\
  connectWithPeer envSelfBad (sampleInfo "self") newWorld = Ok None newWorld /\
  ~ (forall e,
       IsBad envSelfBad (peers newWorld) (ID (sampleInfo "self")) = Some e ->
       exists w',
         connectWithPeer envSelfBad (sampleInfo "self") newWorld
           = Ok (Some (ErrWrap e "refused to connect to bad peer")) w').
Proof.
  split; [reflexivity|]. split; [reflexivity|].
  intros H. destruct (H _ eq_refl) as (w' & Hw'). discriminate Hw'.
Qed.





(** ** Dialing a batch *)

Lemma traced_nil w : traced w [] = w.
Proof. destruct w. unfold traced; cbn. now rewrite app_nil_r. Qed.

Lemma traced_traced w e1 e2 : traced (traced w e1) e2 = traced w (e1 ++ e2).
Proof. unfold traced; cbn. now rewrite app_assoc. Qed.

Lemma launched_nil w : launched w [] = w.
Proof. destruct w. unfold launched; cbn. now rewrite app_nil_r. Qed.

Lemma launched_launched w g1 g2 :
  launched (launched w g1) g2 = launched w (g1 ++ g2).
Proof. unfold launched; cbn. now rewrite app_assoc. Qed.

Lemma forEach_go infos w :
  forEach (fun info => go (GoConnectWithPeer info)) infos w
    = Ok tt (launched w (map GoConnectWithPeer infos)).
Proof.
  revert w. induction infos as [|info infos IH]; intros w; cbn.
  - now rewrite launched_nil.
  - erewrite bind_Ok by reflexivity.
    rewrite IH. unfold launched; cbn. now rewrite <- app_assoc.
Qed.


Lemma dialableBootnodes_cons_parse_error env addr rest err :
  enodeParse env addr = inr err ->
  dialableBootnodes env (addr :: rest) = dialableBootnodes env rest.
Proof. intros H. unfold dialableBootnodes, parsedBootnodes. cbn. now rewrite H. Qed.

Lemma dialableBootnodes_cons_tcp env addr rest n :
  enodeParse env addr = inl n -> loadTCP env n = None ->
  dialableBootnodes env (addr :: rest) = n :: dialableBootnodes env rest.
Proof.
  intros Hp Ht. unfold dialableBootnodes, parsedBootnodes. cbn. rewrite Hp.
  rewrite filter_cons_True; [reflexivity|]. unfold carriesTCP. now rewrite Ht.
Qed.

Lemma dialableBootnodes_cons_no_tcp env addr rest n err :
  enodeParse env addr = inl n -> loadTCP env n = Some err ->
  dialableBootnodes env (addr :: rest) = dialableBootnodes env rest.
Proof.
  intros Hp Ht. unfold dialableBootnodes, parsedBootnodes. cbn. rewrite Hp.
  rewrite filter_cons_False; [reflexivity|]. unfold carriesTCP. now rewrite Ht.
Qed.

(** The loop against the specification's reading of it: it stops at the first
    entry that does not parse; if there is none it has collected, in order,
    the records that carry a TCP port; all it does to the world is log. *)
Lemma resolveBootnodes_spec env addrs : forall nodes w,
  exists evs,
    Forall (fun e => isTCPLog e = true) evs /\
    resolveBootnodes env addrs nodes w
      = Ok match firstParseError env addrs with
           | Some err => inr err
           | None => inl (nodes ++ dialableBootnodes env addrs)
           end (traced w evs).
Proof.
  induction addrs as [|addr rest IH]; intros nodes w;
    cbn [resolveBootnodes firstParseError].
  - exists []. split; [constructor|].
    change (dialableBootnodes env []) with (@nil string).
    now rewrite traced_nil, app_nil_r.
  - destruct (enodeParse env addr) as [n|err] eqn:Hp.
    + destruct (loadTCP env n) as [terr|] eqn:Ht.
      * rewrite (dialableBootnodes_cons_no_tcp _ _ _ _ _ Hp Ht).
        destruct (enrIsNotFound env terr); cbn.
        -- erewrite bind_Ok by reflexivity. apply IH.
        -- erewrite bind_Ok by reflexivity.
           destruct (IH nodes
                       (traced w [EvLog LError "Could not retrieve tcp port"
                                        (Some terr)]))
             as (evs & Hevs & E).
           eexists. split; [|rewrite <- traced_traced; exact E].
           constructor; [reflexivity|exact Hevs].
      * rewrite (dialableBootnodes_cons_tcp _ _ _ _ Hp Ht).
        destruct (IH (nodes ++ [n]) w) as (evs & Hevs & E).
        exists evs. split; [exact Hevs|]. rewrite E.
        now rewrite <- app_assoc.
    + exists []. split; [constructor|]. now rewrite traced_nil.
Qed.

Lemma firstParseError_None env addrs :
  firstParseError env addrs = None <->
  (forall addr, addr ∈ addrs -> exists n, enodeParse env addr = inl n).
Proof.
  induction addrs as [|addr rest IH]; cbn.
  - split; [intros _ a Ha; inversion Ha | reflexivity].
  - destruct (enodeParse env addr) as [n|err] eqn:Hp.
    + rewrite IH. split.
      * intros H a Ha. inversion Ha; subst; [eauto | auto].
      * intros H a Ha. apply H. now constructor.
    + split; [discriminate|]. intros H.
      destruct (H addr) as (n & Hn); [constructor | congruence].
Qed.

Lemma firstParseError_Some env addrs addr err0 :
  addr ∈ addrs -> enodeParse env addr = inr err0 ->
  exists err, firstParseError env addrs = Some err.
Proof.
  intros Hin Hp. destruct (firstParseError env addrs) as [err|] eqn:E.
  - now exists err.
  - destruct (proj1 (firstParseError_None env addrs) E addr Hin) as (n & Hn).
    congruence.
Qed.









(** What the sample run of C8 dials: the first and the third entry. *)
Example connectToBootnodes_mixed_dials :
  dialsFor envBootMixed (convertToMultiAddr envBootMixed
    (dialableBootnodes envBootMixed ["enr:a"; "enr:udp-only"; "enr:b"]))
  = [GoConnectWithPeer (sampleInfo "enr:a");
     GoConnectWithPeer (sampleInfo "enr:b")].
Proof. reflexivity. Qed.

(** ** The genesis gate *)

Lemma awaitStateInitialized_frame env :
  keeps started (awaitStateInitialized env) /\
  keeps isPreGenesis (awaitStateInitialized env) /\
  keeps startupErr (awaitStateInitialized env) /\
  keeps dv5Listener (awaitStateInitialized env) /\
  keeps peers (awaitStateInitialized env) /\
  keeps goroutines (awaitStateInitialized env) /\
  keeps periodics (awaitStateInitialized env).
Proof. unfold awaitStateInitialized. repeat split; frame. Qed.

Lemma app_cons_neq {A} (l evs : list A) (x : A) : l ++ x :: evs <> l.
Proof.
  intros H. apply (f_equal length) in H. rewrite length_app in H.
  cbn in H. lia.
Qed.

Lemma isInitialized_iff w :
  isInitialized w = true <->
  IsZero (genesisTime w) = false /\ length (genesisValidatorsRoot w) = 32%nat.
Proof.
  unfold isInitialized.
  rewrite andb_true_iff, negb_true_iff, Nat.eqb_eq. reflexivity.
Qed.

(** The gate on an uninitialized service whose clock waiter hands over a
    clock: the genesis data are recorded and the gate returns. *)
Lemma awaitStateInitialized_clock env w clock :
  isInitialized w = false ->
  WaitForClock env (trace w) = inl clock ->
  exists w',
    awaitStateInitialized env w = Ok tt w' /\
    genesisTime w' = GenesisTime clock /\
    genesisValidatorsRoot w' = vec_to_list (GenesisValidatorsRoot clock) /\
    exists evs, trace w' = trace w ++ EvWaitForClock :: evs.
Proof.
  intros Hinit Hclock. unfold awaitStateInitialized.
  erewrite bind_Ok by reflexivity. rewrite Hinit.
  erewrite bind_Ok by reflexivity. rewrite Hclock.
  destruct (currentForkDigest env (GenesisTime clock)
              (vec_to_list (GenesisValidatorsRoot clock))) as [e'|] eqn:Hfd;
    run; rewrite Hfd; cbn; eexists; (split; [reflexivity|]); cbn;
    (split; [reflexivity|]); (split; [reflexivity|]); eexists;
    rewrite <- ?app_assoc; reflexivity.
Qed.

Lemma fatal_run msg err w :
  fatal msg err w = Exit (traced w [EvLog LFatal msg err]).
Proof. reflexivity. Qed.

(** The gate on an uninitialized service whose clock waiter answers an
    error: the process ends at the fatal log, nothing recorded. *)
Lemma awaitStateInitialized_error env w e :
  isInitialized w = false ->
  WaitForClock env (trace w) = inr e ->
  awaitStateInitialized env w
    = Exit (traced w [EvWaitForClock;
                      EvLog LFatal "failed to receive initial genesis data"
                            (Some e)]).
Proof.
  intros Hinit Hclock. unfold awaitStateInitialized.
  erewrite bind_Ok by reflexivity. rewrite Hinit.
  erewrite bind_Ok by reflexivity. rewrite Hclock.
  erewrite bind_Exit by (erewrite bind_Exit by apply fatal_run; reflexivity).
  unfold traced. cbn. now rewrite <- app_assoc.
Qed.

Lemma awaitStateInitialized_waits env w :
  isInitialized w = false ->
  exists evs,
    trace (final (awaitStateInitialized env w))
      = trace w ++ EvWaitForClock :: evs.
Proof.
  intros Hinit. destruct (WaitForClock env (trace w)) as [clock|e] eqn:Hclock.
  - destruct (awaitStateInitialized_clock env w clock Hinit Hclock)
      as (w' & E & _ & _ & Ht).
    now rewrite E.
  - rewrite (awaitStateInitialized_error env w e Hinit Hclock). cbn.
    now eexists.
Qed.

Lemma awaitStateInitialized_passes env w :
  gatePasses env w -> exists w', awaitStateInitialized env w = Ok tt w'.
Proof.
  intros Hgate. destruct (isInitialized w) eqn:Hinit.
  - exists w. unfold awaitStateInitialized.
    erewrite bind_Ok by reflexivity. now rewrite Hinit.
  - destruct Hgate as [H|(clock & Hclock)]; [congruence|].
    destruct (awaitStateInitialized_clock env w clock Hinit Hclock)
      as (w' & E & _).
    now exists w'.
Qed.

(** C10.  [isInitialized] holds exactly when the genesis time is not the zero
    time and the recorded root is 32 bytes long, so a root of any other
    length leaves the service uninitialized whatever the genesis time; and the
    gate returns at once, leaving the world untouched, exactly when
    [isInitialized] holds: otherwise its first step is the clock wait,
    however the run then ends. *)
Theorem isInitialized_gate env w :
  (isInitialized w = true <->
     IsZero (genesisTime w) = false /\
     length (genesisValidatorsRoot w) = 32%nat) /\
  (length (genesisValidatorsRoot w) <> 32%nat -> isInitialized w = false) /\
  (awaitStateInitialized env w = Ok tt w <-> isInitialized w = true) /\
  (isInitialized w = false ->
     exists evs,
       trace (final (awaitStateInitialized env w))
         = trace w ++ EvWaitForClock :: evs).
Proof.
  split; [apply isInitialized_iff|]. split; [|split].
  - intros Hlen. destruct (isInitialized w) eqn:E; [|reflexivity].
    apply isInitialized_iff in E. tauto.
  - split.
    + intros Hrun. destruct (isInitialized w) eqn:E; [reflexivity|].
      destruct (awaitStateInitialized_waits env w E) as (evs & Ht).
      rewrite Hrun in Ht. cbn in Ht.
      symmetry in Ht. now apply app_cons_neq in Ht.
    + intros Hinit. unfold awaitStateInitialized.
      erewrite bind_Ok by reflexivity. now rewrite Hinit.
  - apply awaitStateInitialized_waits.
Qed.

Lemma isInitialized_gate_witness :
  isInitialized newWorld = false /\
  exists evs,
    trace (final (awaitStateInitialized envMallory newWorld))
      = [] ++ EvWaitForClock :: evs.
Proof.
  split; [reflexivity|].
  apply (proj2 (proj2 (proj2 (isInitialized_gate envMallory newWorld)))).
  reflexivity.
Defined.

(** ** Stop and Status *)

(** C9, as the code has it.  [Stop] returns nil, leaves [started] false, and
    closes the discovery listener if there is one before it cancels the
    context; the [Status] that follows reports "not running" when the service
    has left the pre-genesis phase. *)
Theorem Stop_then_Status w :
  isPreGenesis w = false ->
  exists w',
    Stop w = Ok None w' /\
    started w' = false /\
    trace w' = trace w ++
      match dv5Listener w with
      | Some l => [EvListenerClose l]
      | None => []
      end ++ [EvCancel] /\
    Status w' = Some (ErrNew "not running").
Proof.
  intros Hpre. unfold Stop. run.
  destruct (dv5Listener w) as [l|]; cbn;
    eexists; (split; [reflexivity|]); cbn; unfold Status; cbn;
    rewrite Hpre, <- ?app_assoc; repeat split.
Qed.

Lemma Stop_then_Status_witness :
  exists w1,
    Start envBootMixed newWorld = Ok tt w1 /\
    dv5Listener w1 = Some "discv5" /\
    exists w',
      Stop w1 = Ok None w' /\
      started w' = false /\
      trace w' = trace w1 ++ [EvListenerClose "discv5"] ++ [EvCancel] /\
      Status w' = Some (ErrNew "not running").
Proof.
  eexists. split; [vm_compute; reflexivity|].
  split; [reflexivity|].
  lazymatch goal with
  | |- exists w', Stop ?w1 = _ /\ _ =>
      exact (Stop_then_Status w1 eq_refl)
  end.
Defined.

(** C9 as stated fails on a service that was never started: [NewHost] leaves
    it pre-genesis, and the [Status] that follows [Stop] reports no error. *)
Lemma Stop_then_Status_pre_genesis :
  NewHost envMallory = ([], inl newWorld) /\
  exists w',
    Stop newWorld = Ok None w' /\
    started w' = false /\
    Status w' = None /\
    Status w' <> Some (ErrNew "not running").
Proof.
  split; [reflexivity|]. eexists. split; [reflexivity|].
  repeat split. discriminate.
Qed.

(** ** Start *)

Lemma dialRelay_returns env : returns (dialRelay env).
Proof. unfold dialRelay. frame. Qed.

Lemma startPrelude_passes env w :
  gatePasses env w -> exists relay w1, startPrelude env w = Ok relay w1.
Proof.
  intros Hgate. unfold startPrelude.
  destruct (awaitStateInitialized_passes env w Hgate) as (w0 & E0).
  erewrite bind_Ok by exact E0. erewrite bind_Ok by reflexivity.
  apply dialRelay_returns.
Qed.

Lemma startPrelude_frame env :
  keeps started (startPrelude env) /\
  keeps startupErr (startPrelude env) /\
  keeps dv5Listener (startPrelude env) /\
  keeps goroutines (startPrelude env) /\
  keeps periodics (startPrelude env).
Proof.
  unfold startPrelude, dialRelay.
  repeat split; frame; apply (awaitStateInitialized_frame env).
Qed.


(** The pre-genesis phase is over once the prelude has returned. *)
Lemma startPrelude_ends_pre_genesis env w relay w1 :
  startPrelude env w = Ok relay w1 -> isPreGenesis w1 = false.
Proof.
  unfold startPrelude. intros H.
  apply bind_inv in H as ([] & w0 & _ & H).
  apply bind_inv in H as ([] & w0' & H0 & H). injection H0 as <-.
  assert (K : keeps isPreGenesis (dialRelay env))
    by (unfold dialRelay; frame).
  specialize (K (mkWorld (started w0) false (startupErr w0) (genesisTime w0)
                         (genesisValidatorsRoot w0) (dv5Listener w0)
                         (peers w0) (trace w0) (goroutines w0)
                         (periodics w0))).
  run. rewrite H in K. exact K.
Qed.

(** The first exit of the discovery step: the process ends at the fatal
    log, before the statements that record the error and return. *)
Lemma startDiscovery_listener_failure env w e :
  NoDiscovery (cfg env) = false ->
  startDiscoveryV5 env (trace w) = inr e ->
  startDiscovery env w
    = Exit (traced w [EvStartDiscoveryV5;
                      EvLog LFatal "Failed to start discovery" (Some e)]).
Proof.
  intros Hcfg Hdisc. unfold startDiscovery. rewrite Hcfg.
  erewrite bind_Ok by reflexivity.
  erewrite bind_Ok by reflexivity. rewrite Hdisc.
  erewrite bind_Exit by apply fatal_run.
  unfold traced. cbn. now rewrite <- app_assoc.
Qed.

Lemma Start_not_started env w :
  started w = false ->
  Start env w =
    (startPrelude env ≫= fun relayNodes =>
     startDiscovery env ≫= fun proceed : bool =>
     if proceed then startRunning env relayNodes else mret tt) w.
Proof.
  intros Hs. unfold Start. erewrite bind_Ok by reflexivity. now rewrite Hs.
Qed.




(** Nothing after the prelude writes [isPreGenesis]. *)
Lemma resolveBootnodes_keeps_isPreGenesis env addrs nodes :
  keeps isPreGenesis (resolveBootnodes env addrs nodes).
Proof.
  intros w. destruct (resolveBootnodes_spec env addrs nodes w) as (evs & _ & E).
  now rewrite E.
Qed.

Lemma connectToBootnodes_keeps_isPreGenesis env :
  keeps isPreGenesis (connectToBootnodes env).
Proof.
  unfold connectToBootnodes, connectWithAllPeers. frame.
  apply resolveBootnodes_keeps_isPreGenesis.
Qed.

Lemma startDiscovery_keeps_isPreGenesis env :
  keeps isPreGenesis (startDiscovery env).
Proof.
  unfold startDiscovery. frame.
  apply connectToBootnodes_keeps_isPreGenesis.
Qed.

Lemma startRunning_keeps_isPreGenesis env relayNodes :
  keeps isPreGenesis (startRunning env relayNodes).
Proof.
  unfold startRunning, dialStaticPeers, connectWithAllTrustedPeers,
    registerPeriodics, logAddresses.
  frame.
Qed.

#[global] Hint Resolve startDiscovery_keeps_isPreGenesis
  startRunning_keeps_isPreGenesis : frame.

(** A [Start] that runs and leaves the service started has left the
    pre-genesis phase, however it ends. *)
Lemma Start_ends_pre_genesis env w :
  started w = false ->
  started (final (Start env w)) = true ->
  isPreGenesis (final (Start env w)) = false.
Proof.
  intros Hs. rewrite (Start_not_started env w Hs).
  destruct (startPrelude_frame env) as (Ks & _). specialize (Ks w).
  destruct (startPrelude env w) as [relay w1|w1|w1] eqn:E1; cbn [final] in Ks.
  - intros _. pose proof (startPrelude_ends_pre_genesis _ _ _ _ E1) as Hpre.
    erewrite bind_Ok by exact E1.
    assert (K : keeps isPreGenesis
                  (startDiscovery env ≫= fun proceed : bool =>
                   if proceed then startRunning env relay else mret tt))
      by frame.
    now rewrite K.
  - erewrite bind_Panic by exact E1. cbn. congruence.
  - erewrite bind_Exit by exact E1. cbn. congruence.
Qed.

(** C2.  While [isPreGenesis] is true [Status] returns nil, whatever the
    other fields say; and once [Start] has run to the end on a stopped
    service and left it started, [Status] returns nil exactly when the
    genesis time is not the zero time and no startup error is recorded. *)
Theorem Status_health env w w' :
  (isPreGenesis w = true -> Status w = None) /\
  (started w = false ->
   Start env w = Ok tt w' ->
   started w' = true ->
   (Status w' = None <->
    IsZero (genesisTime w') = false /\ startupErr w' = None)).
Proof.
  split.
  - intros Hpre. unfold Status. now rewrite Hpre.
  - intros Hs Hrun Hs'.
    pose proof (Start_ends_pre_genesis env w Hs) as Hpre.
    rewrite Hrun in Hpre; cbn [final] in Hpre. specialize (Hpre Hs').
    unfold Status, errors_New. rewrite Hpre, Hs'. cbn.
    destruct (startupErr w') as [e|], (IsZero (genesisTime w'));
      split; intros H; try discriminate; try tauto;
      destruct H; discriminate.
Qed.

Lemma Status_health_witness :
  Status newWorld = None /\
  exists w',
    Start envBootMixed newWorld = Ok tt w' /\
    started w' = true /\
    (Status w' = None <->
     IsZero (genesisTime w') = false /\ startupErr w' = None).
Proof.
  split.
  - exact (proj1 (Status_health envBootMixed newWorld newWorld) eq_refl).
  - eexists. split; [vm_compute; reflexivity|]. split; [reflexivity|].
    lazymatch goal with
    | |- Status ?w' = None <-> _ =>
        exact (proj2 (Status_health envBootMixed newWorld w')
                     eq_refl eq_refl eq_refl)
    end.
Defined.

(** * Further properties *)

(** ** Invariants and traces through the monad *)

Lemma preserves_ret {A} (I : World -> Prop) (a : A) : preserves I (mret a).
Proof. intros w H. exact H. Qed.

Lemma preserves_bind {A B} (I : World -> Prop) (m : M A) (k : A -> M B) :
  preserves I m -> (forall a, preserves I (k a)) -> preserves I (m ≫= k).
Proof.
  intros Hm Hk w Hw. unfold mbind, M_bind.
  specialize (Hm w Hw). destruct (m w) as [a w1|w1|w1]; cbn in *.
  - now apply Hk.
  - exact Hm.
  - exact Hm.
Qed.

Lemma preserves_modify (I : World -> Prop) (g : World -> World) :
  (forall w, I w -> I (g w)) -> preserves I (modify g).
Proof. intros H w Hw. now apply H. Qed.

Lemma preserves_forEach {A} (I : World -> Prop) (body : A -> M unit) l :
  (forall x, preserves I (body x)) -> preserves I (forEach body l).
Proof.
  intros H. induction l as [|x l IH]; cbn.
  - apply preserves_ret.
  - apply preserves_bind; [apply H | intros _; exact IH].
Qed.

Lemma preserves_keeps {A B} (f : World -> B) (P : B -> Prop) (m : M A) :
  keeps f m -> preserves (fun w => P (f w)) m.
Proof. intros K w Hw. now rewrite K. Qed.

Lemma emitsOnly_ret {A} P (a : A) : emitsOnly P (mret a).
Proof. intros w. exists []. cbn. now rewrite app_nil_r. Qed.

Lemma emitsOnly_bind {A B} P (m : M A) (k : A -> M B) :
  emitsOnly P m -> (forall a, emitsOnly P (k a)) -> emitsOnly P (m ≫= k).
Proof.
  intros Hm Hk w. unfold mbind, M_bind.
  destruct (Hm w) as (e1 & E1 & F1).
  destruct (m w) as [a w1|w1|w1]; cbn in *.
  - destruct (Hk a w1) as (e2 & E2 & F2). exists (e1 ++ e2).
    rewrite E2, E1, app_assoc. split; [reflexivity|].
    apply Forall_app. now split.
  - now exists e1.
  - now exists e1.
Qed.

Lemma emitsOnly_keeps {A} P (m : M A) : keeps trace m -> emitsOnly P m.
Proof. intros K w. exists []. rewrite K, app_nil_r. now split. Qed.

Lemma emitsOnly_emit (P : Event -> Prop) e : P e -> emitsOnly P (emit e).
Proof. intros H w. exists [e]. split; [reflexivity|]. now constructor. Qed.

Lemma emitsOnly_whenErr P err k :
  (forall e, emitsOnly P (k e)) -> emitsOnly P (whenErr err k).
Proof. intros H. destruct err; [apply H | apply emitsOnly_ret]. Qed.

Lemma emitsOnly_forEach {A} P (body : A -> M unit) l :
  (forall x, emitsOnly P (body x)) -> emitsOnly P (forEach body l).
Proof.
  intros H. induction l as [|x l IH]; cbn.
  - apply emitsOnly_ret.
  - apply emitsOnly_bind; [apply H | intros _; exact IH].
Qed.

(** One step into a method for a goal about what it writes on the trace. *)
Ltac emits_step :=
  match goal with
  | |- emitsOnly _ (mbind _ _) => apply emitsOnly_bind; [| intros ?]
  | |- emitsOnly _ (whenErr _ _) => apply emitsOnly_whenErr; intros ?
  | |- emitsOnly _ (forEach _ _) => apply emitsOnly_forEach; intros ?
  | |- emitsOnly _ (mret _) => apply emitsOnly_ret
  | |- emitsOnly _ get => apply emitsOnly_keeps, keeps_get
  | |- emitsOnly _ panic => apply emitsOnly_keeps, keeps_panic
  | |- emitsOnly _ exit => apply emitsOnly_keeps, keeps_exit
  | |- emitsOnly _ (fatal _ _) => unfold fatal
  | |- emitsOnly _ (RunEvery _ _) => unfold RunEvery
  | |- emitsOnly _ (emit _) => apply emitsOnly_emit; reflexivity
  | |- emitsOnly _ (log _ _ _) => apply emitsOnly_emit; reflexivity
  | |- _ (if ?b then _ else _) => destruct b
  | |- _ (match ?x with _ => _ end) => destruct x
  | |- emitsOnly _ _ =>
      apply emitsOnly_keeps, keeps_modify; intros ?; reflexivity
  end.

Ltac emits := cbv beta; repeat (emits_step; cbv beta).

(** One step into a method for a goal about an invariant. *)
Ltac preserves_step :=
  match goal with
  | |- preserves _ (mbind _ _) => apply preserves_bind; [| intros ?]
  | |- preserves _ (whenErr ?e _) => destruct e; unfold whenErr
  | |- preserves _ (forEach _ _) => apply preserves_forEach; intros ?
  | |- preserves _ (mret _) => apply preserves_ret
  | |- preserves _ get => apply preserves_ret
  | |- preserves _ panic => intros ? ?; assumption
  | |- preserves _ exit => intros ? ?; assumption
  | |- preserves _ (fatal _ _) => unfold fatal
  | |- preserves _ (RunEvery _ _) => unfold RunEvery
  | |- _ (if ?b then _ else _) => destruct b
  | |- _ (match ?x with _ => _ end) => destruct x
  | |- preserves _ _ =>
      apply preserves_modify; intros ? ?; cbn in *;
      solve [assumption | intuition (auto; discriminate)]
  end.

Ltac inv_frame := cbv beta; repeat (preserves_step; cbv beta).

(** ** The steps of Start *)

Lemma resolveBootnodes_keeps {B} (f : World -> B) env addrs nodes :
  (forall w evs, f (traced w evs) = f w) ->
  keeps f (resolveBootnodes env addrs nodes).
Proof.
  intros Hf w.
  destruct (resolveBootnodes_spec env addrs nodes w) as (evs & _ & E).
  rewrite E. apply Hf.
Qed.

Lemma startDiscovery_frame env :
  keeps started (startDiscovery env) /\
  keeps isPreGenesis (startDiscovery env) /\
  keeps periodics (startDiscovery env) /\
  keeps peers (startDiscovery env) /\
  keeps genesisTime (startDiscovery env).
Proof.
  unfold startDiscovery, connectToBootnodes, connectWithAllPeers.
  repeat split; frame; now apply resolveBootnodes_keeps.
Qed.

(** [connectToBootnodes] returns the first parse error, if any; it writes
    no field of the service, and launches nothing when it returns an error. *)
Lemma connectToBootnodes_result env w :
  exists w',
    connectToBootnodes env w
      = Ok (firstParseError env (Discv5BootStrapAddrs (cfg env))) w' /\
    startupErr w' = startupErr w /\
    dv5Listener w' = dv5Listener w /\
    started w' = started w /\
    peers w' = peers w /\
    periodics w' = periodics w /\
    isPreGenesis w' = isPreGenesis w /\
    (exists evs, trace w' = trace w ++ evs) /\
    (is_Some (firstParseError env (Discv5BootStrapAddrs (cfg env))) ->
     goroutines w' = goroutines w).
Proof.
  unfold connectToBootnodes.
  destruct (resolveBootnodes_spec env (Discv5BootStrapAddrs (cfg env)) [] w)
    as (evs & _ & E).
  erewrite bind_Ok by exact E.
  destruct (firstParseError env (Discv5BootStrapAddrs (cfg env))) as [pe|].
  - eexists. split; [reflexivity|]. cbn.
    repeat (split; [reflexivity|]). split; [now exists evs | reflexivity].
  - cbv beta iota. cbn [app]. unfold connectWithAllPeers.
    destruct (AddrInfosFromP2pAddrs env _) as [infos|err].
    + erewrite bind_Ok by apply forEach_go.
      eexists. split; [reflexivity|]. cbn.
      repeat (split; [reflexivity|]). split; [now exists evs|].
      intros [? ?]. discriminate.
    + erewrite bind_Ok by reflexivity.
      eexists. split; [reflexivity|]. cbn.
      repeat (split; [reflexivity|]). split.
      * eexists. rewrite <- app_assoc. reflexivity.
      * intros [? ?]. discriminate.
Qed.

(** What the discovery step has done when it lets [Start] go on, and when it
    does not. *)
Lemma startDiscovery_inv env w proceed w' :
  startDiscovery env w = Ok proceed w' ->
  if proceed then
    startupErr w' = startupErr w /\
    (if NoDiscovery (cfg env) then w' = w
     else exists l, startDiscoveryV5 env (trace w) = inl l /\
                    dv5Listener w' = Some l /\
                    firstParseError env (Discv5BootStrapAddrs (cfg env))
                      = None)
  else
    NoDiscovery (cfg env) = false /\
    dv5Listener w' = dv5Listener w /\
    goroutines w' = goroutines w /\
    (exists evs, trace w' = trace w ++ EvStartDiscoveryV5 :: evs) /\
    exists e l,
      startupErr w' = Some e /\
      startDiscoveryV5 env (trace w) = inl l /\
      firstParseError env (Discv5BootStrapAddrs (cfg env)) = Some e.
Proof.
  unfold startDiscovery. destruct (NoDiscovery (cfg env)).
  { intros H. injection H as <- <-. split; reflexivity. }
  erewrite bind_Ok by reflexivity. erewrite bind_Ok by reflexivity.
  destruct (startDiscoveryV5 env (trace w)) as [l|e] eqn:Hd.
  - destruct (connectToBootnodes_result env (traced w [EvStartDiscoveryV5]))
      as (w1 & Hrun & Herr & Hl & _ & _ & _ & _ & (evs & Ht) & Hg).
    change (modify _ w) with (Ok tt (traced w [EvStartDiscoveryV5])).
    erewrite bind_Ok by exact Hrun.
    destruct (firstParseError env (Discv5BootStrapAddrs (cfg env)))
      as [pe|] eqn:Hpe.
    + intros H. injection H as <- <-. cbn in *.
      split; [reflexivity|]. split; [exact Hl|]. split; [now apply Hg|].
      split.
      * eexists. rewrite Ht, <- !app_assoc. reflexivity.
      * exists pe, l. repeat split.
    + intros H. injection H as <- <-. cbn in *.
      split; [exact Herr|]. now exists l.
  - erewrite bind_Exit by apply fatal_run. discriminate.
Qed.

(** The discovery step returns when discovery is disabled or the listener
    starts. *)
Lemma startDiscovery_listener_up env w :
  NoDiscovery (cfg env) = true \/
  (exists l, startDiscoveryV5 env (trace w) = inl l) ->
  exists proceed w', startDiscovery env w = Ok proceed w'.
Proof.
  intros Hup. unfold startDiscovery.
  destruct (NoDiscovery (cfg env)); [eexists; eexists; reflexivity|].
  destruct Hup as [H|(l & Hl)]; [discriminate|].
  erewrite bind_Ok by reflexivity. erewrite bind_Ok by reflexivity.
  rewrite Hl.
  destruct (connectToBootnodes_result env (traced w [EvStartDiscoveryV5]))
    as (w1 & Hrun & _).
  change (modify _ w) with (Ok tt (traced w [EvStartDiscoveryV5])).
  erewrite bind_Ok by exact Hrun.
  destruct (firstParseError env (Discv5BootStrapAddrs (cfg env)));
    eexists; eexists; reflexivity.
Qed.

Lemma keeps_Ok {A B} (f : World -> B) (m : M A) w a w' :
  keeps f m -> m w = Ok a w' -> f w' = f w.
Proof. intros K E. specialize (K w). now rewrite E in K. Qed.

Lemma startPrelude_value env w relay w1 :
  startPrelude env w = Ok relay w1 -> relay = relayNodesOf env.
Proof.
  unfold startPrelude, dialRelay, relayNodesOf. intros H.
  apply bind_inv in H as ([] & w0 & _ & H).
  apply bind_inv in H as ([] & w0' & _ & H).
  destruct (decide (RelayNodeAddr (cfg env) = "")).
  - now injection H as <- _.
  - apply bind_inv in H as (? & ? & _ & H).
    apply bind_inv in H as (? & ? & _ & H).
    apply bind_inv in H as (? & ? & _ & H).
    now injection H as <- _.
Qed.

Lemma dialStaticPeers_frame env :
  keeps started (dialStaticPeers env) /\
  keeps startupErr (dialStaticPeers env) /\
  keeps dv5Listener (dialStaticPeers env) /\
  keeps periodics (dialStaticPeers env) /\
  keeps isPreGenesis (dialStaticPeers env).
Proof.
  unfold dialStaticPeers, connectWithAllTrustedPeers. repeat split; frame.
Qed.

Lemma logAddresses_frame env :
  keeps started (logAddresses env) /\
  keeps startupErr (logAddresses env) /\
  keeps dv5Listener (logAddresses env) /\
  keeps periodics (logAddresses env).
Proof. unfold logAddresses. repeat split; frame. Qed.

Lemma RunEvery_run d p w :
  RunEvery d p w = if d <=? 0 then Panic w else Ok tt (registered w [(d, p)]).
Proof. unfold RunEvery. destruct (d <=? 0); reflexivity. Qed.

Lemma registered_registered w a b :
  registered (registered w a) b = registered w (a ++ b).
Proof. unfold registered; cbn. now rewrite app_assoc. Qed.

(** [registerPeriodics] returns exactly when every interval is positive, and
    then has registered the five functions. *)
Lemma registerPeriodics_inv env relay w w' :
  registerPeriodics env relay w = Ok tt w' ->
  intervalsPositive env /\
  w' = registered w
    [ (TtfbTimeoutDuration env, PEnsurePeerConnections relay);
      (30 * Minute, PPrune);
      (wrap64 (wrap64 (RespTimeout env) * Second), PUpdateMetrics);
      (refreshRate env, PRefreshPersistentSubnets);
      (1 * Minute, PLogConnectedPeers) ].
Proof.
  unfold registerPeriodics, intervalsPositive, mbind, M_bind.
  rewrite RunEvery_run.
  destruct (Z.leb_spec (TtfbTimeoutDuration env) 0); [discriminate|].
  rewrite RunEvery_run.
  replace (30 * Minute <=? 0) with false by reflexivity.
  rewrite RunEvery_run.
  destruct (Z.leb_spec (wrap64 (wrap64 (RespTimeout env) * Second)) 0);
    [discriminate|].
  rewrite RunEvery_run.
  destruct (Z.leb_spec (refreshRate env) 0); [discriminate|].
  rewrite RunEvery_run.
  replace (1 * Minute <=? 0) with false by reflexivity.
  rewrite !registered_registered. cbn [app].
  intros Hrun. injection Hrun as <-. repeat split; assumption.
Qed.

Lemma registerPeriodics_Ok env relay w :
  intervalsPositive env ->
  registerPeriodics env relay w
    = Ok tt (registered w
        [ (TtfbTimeoutDuration env, PEnsurePeerConnections relay);
          (30 * Minute, PPrune);
          (wrap64 (wrap64 (RespTimeout env) * Second), PUpdateMetrics);
          (refreshRate env, PRefreshPersistentSubnets);
          (1 * Minute, PLogConnectedPeers) ]).
Proof.
  intros (H1 & H2 & H3).
  unfold registerPeriodics, mbind, M_bind.
  rewrite RunEvery_run.
  destruct (Z.leb_spec (TtfbTimeoutDuration env) 0); [lia|].
  rewrite RunEvery_run.
  replace (30 * Minute <=? 0) with false by reflexivity.
  rewrite RunEvery_run.
  destruct (Z.leb_spec (wrap64 (wrap64 (RespTimeout env) * Second)) 0);
    [lia|].
  rewrite RunEvery_run.
  destruct (Z.leb_spec (refreshRate env) 0); [lia|].
  rewrite RunEvery_run.
  replace (1 * Minute <=? 0) with false by reflexivity.
  now rewrite !registered_registered.
Qed.

(** The running phase, when it returns: started, with the five periodic
    functions registered, and neither the startup error nor the listener
    touched. *)
Lemma startRunning_inv env relay w w' :
  startRunning env relay w = Ok tt w' ->
  started w' = true /\
  startupErr w' = startupErr w /\
  dv5Listener w' = dv5Listener w /\
  periodics w' = periodics w ++
    [ (TtfbTimeoutDuration env, PEnsurePeerConnections relay);
      (30 * Minute, PPrune);
      (wrap64 (wrap64 (RespTimeout env) * Second), PUpdateMetrics);
      (refreshRate env, PRefreshPersistentSubnets);
      (1 * Minute, PLogConnectedPeers) ].
Proof.
  unfold startRunning. intros H.
  apply bind_inv in H as ([] & w3 & H3 & H). injection H3 as <-.
  apply bind_inv in H as ([] & w4 & H4 & H).
  destruct (dialStaticPeers_frame env) as (Ks & Ke & Kl & Kp & _).
  apply (keeps_Ok _ _ _ _ _ Ks) in H4 as Hs4.
  apply (keeps_Ok _ _ _ _ _ Ke) in H4 as He4.
  apply (keeps_Ok _ _ _ _ _ Kl) in H4 as Hl4.
  apply (keeps_Ok _ _ _ _ _ Kp) in H4 as Hp4. cbn in *.
  apply bind_inv in H as ([] & w5 & H5 & H). injection H5 as <-.
  apply bind_inv in H as ([] & w6 & H6 & H).
  apply registerPeriodics_inv in H6 as (_ & ->).
  apply bind_inv in H as ([] & w7 & H7 & H).
  destruct (logAddresses_frame env) as (Ks' & Ke' & Kl' & Kp').
  apply (keeps_Ok _ _ _ _ _ Ks') in H7 as Hs7.
  apply (keeps_Ok _ _ _ _ _ Ke') in H7 as He7.
  apply (keeps_Ok _ _ _ _ _ Kl') in H7 as Hl7.
  apply (keeps_Ok _ _ _ _ _ Kp') in H7 as Hp7. cbn in *.
  injection H as <-. cbn.
  rewrite Hs7, He7, Hl7, Hp7, Hs4, He4, Hl4, Hp4.
  rewrite <- ?app_assoc. repeat split.
Qed.

(** [Start] on a stopped service, when it returns, taken apart. *)
Lemma Start_inv env w w' :
  started w = false ->
  Start env w = Ok tt w' ->
  exists w1 proceed w2,
    startPrelude env w = Ok (relayNodesOf env) w1 /\
    startDiscovery env w1 = Ok proceed w2 /\
    if proceed then startRunning env (relayNodesOf env) w2 = Ok tt w'
    else w' = w2.
Proof.
  intros Hs H. rewrite (Start_not_started env w Hs) in H.
  apply bind_inv in H as (relay & w1 & H1 & H).
  apply bind_inv in H as (proceed & w2 & H2 & H).
  pose proof (startPrelude_value _ _ _ _ H1) as ->.
  exists w1, proceed, w2. split; [exact H1|]. split; [exact H2|].
  destruct proceed; [exact H | now injection H as <-].
Qed.

(** ** Start, Stop and Status together *)

(** [Start] on a started service only logs. *)
Lemma Start_on_started env w :
  started w = true ->
  Start env w
    = Ok tt (traced w
        [EvLog LError
           "Attempted to start p2p service when it was already started" None]).
Proof.
  intros Hs. unfold Start. erewrite bind_Ok by reflexivity.
  rewrite Hs. reflexivity.
Qed.

(** X1.  When [Start] reaches the discovery step, the listener starts, but
    a bootstrap entry does not parse, [Start] returns with the parse error as
    [startupErr] and [started] false, and the listener it has just started is
    not stored in [dv5Listener]: on a service that had no listener, the
    [Stop] that follows closes nothing. *)
Theorem Start_bootnode_failure env w relay w1 l addr err0 :
  started w = false ->
  dv5Listener w = None ->
  NoDiscovery (cfg env) = false ->
  startPrelude env w = Ok relay w1 ->
  startDiscoveryV5 env (trace w1) = inl l ->
  addr ∈ Discv5BootStrapAddrs (cfg env) ->
  enodeParse env addr = inr err0 ->
  exists e w' w'',
    Start env w = Ok tt w' /\
    firstParseError env (Discv5BootStrapAddrs (cfg env)) = Some e /\
    startupErr w' = Some e /\
    started w' = false /\
    dv5Listener w' = None /\
    EvStartDiscoveryV5 ∈ trace w' /\
    periodics w' = periodics w /\
    Stop w' = Ok None w'' /\
    trace w'' = trace w' ++ [EvCancel].
Proof.
  intros Hs Hl Hcfg E1 Hdisc Hin Hp.
  destruct (firstParseError_Some _ _ _ _ Hin Hp) as (e & He).
  destruct (startPrelude_frame env) as (Ks & _ & Kl & _ & Kp).
  apply (keeps_Ok _ _ _ _ _ Ks) in E1 as Hs1.
  apply (keeps_Ok _ _ _ _ _ Kl) in E1 as Hl1.
  apply (keeps_Ok _ _ _ _ _ Kp) in E1 as Hp1.
  destruct (startDiscovery_listener_up env w1 (or_intror (ex_intro _ l Hdisc)))
    as (proceed & w2 & E2).
  pose proof (startDiscovery_inv _ _ _ _ E2) as Hinv.
  destruct (startDiscovery_frame env) as (Ks2 & _ & Kp2 & _).
  apply (keeps_Ok _ _ _ _ _ Ks2) in E2 as Hs2.
  apply (keeps_Ok _ _ _ _ _ Kp2) in E2 as Hp2.
  destruct proceed.
  { rewrite Hcfg in Hinv. destruct Hinv as (_ & l' & _ & _ & Hnone).
    congruence. }
  destruct Hinv as (_ & Hl2 & _ & (evs & Ht) & e' & l' & He' & _ & Hpe).
  assert (e' = e) as -> by congruence.
  assert (Hnl : dv5Listener w2 = None) by congruence.
  exists e, w2.
  eexists. split.
  { rewrite (Start_not_started env w Hs).
    erewrite bind_Ok by exact E1. erewrite bind_Ok by exact E2.
    reflexivity. }
  split; [exact He|]. split; [exact He'|]. split; [congruence|].
  split; [exact Hnl|]. split; [rewrite Ht; set_solver|].
  split; [congruence|].
  unfold Stop. run. rewrite Hnl. cbn. split; reflexivity.
Qed.

Lemma Start_bootnode_failure_witness :
  exists e w' w'',
    Start envBootMalformed newWorld = Ok tt w' /\
    firstParseError envBootMalformed ["enr:a"; "garbage"; "enr:b"] = Some e /\
    startupErr w' = Some e /\
    started w' = false /\
    dv5Listener w' = None /\
    EvStartDiscoveryV5 ∈ trace w' /\
    periodics w' = [] /\
    Stop w' = Ok None w'' /\
    trace w'' = trace w' ++ [EvCancel].
Proof.
  refine (Start_bootnode_failure envBootMalformed newWorld []
            (mkWorld false false None (mkTime 1606824023 0)
                     (vec_to_list sampleRoot) None emptyPeers
                     [EvWaitForClock; EvCurrentForkDigest] [] [])
            "discv5" "garbage" (ErrNew "invalid URL scheme")
            _ _ _ _ _ _ _);
    try reflexivity.
  cbn. set_solver.
Defined.

(** X2.  A [Start] that runs and returns ends in one of two ways.  Either
    the service is started, and then [startupErr] is what it was before (an
    earlier error is not cleared) and with discovery enabled a listener is
    stored; or the service is not started, and then discovery is enabled, a
    startup error is recorded and the listener field is what it was. *)
Theorem Start_outcome env w w' :
  started w = false ->
  Start env w = Ok tt w' ->
  (started w' = true /\
   startupErr w' = startupErr w /\
   if NoDiscovery (cfg env) then dv5Listener w' = dv5Listener w
   else exists l, dv5Listener w' = Some l) \/
  (started w' = false /\
   NoDiscovery (cfg env) = false /\
   (exists e, startupErr w' = Some e) /\
   dv5Listener w' = dv5Listener w).
Proof.
  intros Hs H.
  destruct (Start_inv env w w' Hs H) as (w1 & proceed & w2 & E1 & E2 & E3).
  destruct (startPrelude_frame env) as (Ks & Ke & Kl & _).
  apply (keeps_Ok _ _ _ _ _ Ks) in E1 as Hs1.
  apply (keeps_Ok _ _ _ _ _ Ke) in E1 as He1.
  apply (keeps_Ok _ _ _ _ _ Kl) in E1 as Hl1.
  pose proof (startDiscovery_inv _ _ _ _ E2) as Hinv.
  destruct (startDiscovery_frame env) as (Ks2 & _).
  apply (keeps_Ok _ _ _ _ _ Ks2) in E2 as Hs2.
  destruct proceed.
  - left. destruct (startRunning_inv _ _ _ _ E3) as (Hs' & He' & Hl' & _).
    destruct Hinv as (He2 & Hd).
    split; [exact Hs'|]. split; [congruence|].
    destruct (NoDiscovery (cfg env)).
    + subst w2. congruence.
    + destruct Hd as (l & _ & Hl2 & _). exists l. congruence.
  - right. subst w'.
    destruct Hinv as (Hcfg & Hl2 & _ & _ & e & l & He & _).
    split; [congruence|]. split; [exact Hcfg|].
    split; [now exists e | congruence].
Qed.

Lemma Start_outcome_witness :
  exists w',
    Start envBootMixed worldWithStartupErr = Ok tt w' /\
    ((started w' = true /\
      startupErr w' = startupErr worldWithStartupErr /\
      if NoDiscovery (cfg envBootMixed)
      then dv5Listener w' = dv5Listener worldWithStartupErr
      else exists l, dv5Listener w' = Some l) \/
     (started w' = false /\
      NoDiscovery (cfg envBootMixed) = false /\
      (exists e, startupErr w' = Some e) /\
      dv5Listener w' = dv5Listener worldWithStartupErr)).
Proof.
  eexists. split; [vm_compute; reflexivity|].
  lazymatch goal with
  | |- (started ?w' = true /\ _) \/ _ =>
      exact (Start_outcome envBootMixed worldWithStartupErr w'
               eq_refl eq_refl)
  end.
Defined.

(** X3.  A [Start] that runs and returns has registered either nothing or,
    when it leaves the service started, exactly the five periodic functions
    in the order connection levelling, pruning, metrics, subnet refresh,
    peer count logging, each with its interval, the first with the
    configured relay node if there is one. *)
Theorem Start_schedule env w w' :
  started w = false ->
  Start env w = Ok tt w' ->
  periodics w' = periodics w ++ (if started w' then schedule env else []).
Proof.
  intros Hs H.
  destruct (Start_inv env w w' Hs H) as (w1 & proceed & w2 & E1 & E2 & E3).
  destruct (startPrelude_frame env) as (Ks & _ & _ & _ & Kp).
  apply (keeps_Ok _ _ _ _ _ Ks) in E1 as Hs1.
  apply (keeps_Ok _ _ _ _ _ Kp) in E1 as Hp1.
  destruct (startDiscovery_frame env) as (Ks2 & _ & Kp2 & _).
  apply (keeps_Ok _ _ _ _ _ Ks2) in E2 as Hs2.
  apply (keeps_Ok _ _ _ _ _ Kp2) in E2 as Hp2.
  destruct proceed.
  - destruct (startRunning_inv _ _ _ _ E3) as (Hs' & _ & _ & Hp').
    rewrite Hs', Hp'. unfold schedule. congruence.
  - subst w'. replace (started w2) with false by congruence.
    rewrite app_nil_r. congruence.
Qed.

Lemma Start_schedule_witness :
  exists w',
    Start envNoDiscovery newWorld = Ok tt w' /\
    periodics w' =
      [ (5 * Second, PEnsurePeerConnections ["/dns4/relay/tcp/4000"]);
        (30 * Minute, PPrune);
        (10 * Second, PUpdateMetrics);
        (12 * Second, PRefreshPersistentSubnets);
        (1 * Minute, PLogConnectedPeers) ].
Proof.
  eexists. split; [vm_compute; reflexivity|].
  lazymatch goal with
  | |- periodics ?w' = _ =>
      exact (Start_schedule envNoDiscovery newWorld w' eq_refl eq_refl)
  end.
Defined.

Lemma resolveBootnodes_emitsOnly (P : Event -> Prop) env addrs nodes :
  (forall e, isTCPLog e = true -> P e) ->
  emitsOnly P (resolveBootnodes env addrs nodes).
Proof.
  intros HP w.
  destruct (resolveBootnodes_spec env addrs nodes w) as (evs & Hevs & E).
  rewrite E. exists evs. split; [reflexivity|].
  eapply Forall_impl; [exact Hevs | exact HP].
Qed.

Lemma isTCPLog_not_dial e :
  isTCPLog e = true -> isPeerCall e = false /\ isDialEvent e = false.
Proof. destruct e; cbn; split; congruence. Qed.

Lemma Start_no_peer_call env :
  emitsOnly (fun e => isPeerCall e = false) (Start env).
Proof.
  unfold Start, startPrelude, awaitStateInitialized, dialRelay,
    startDiscovery, connectToBootnodes, connectWithAllPeers, startRunning,
    dialStaticPeers, connectWithAllTrustedPeers, registerPeriodics,
    logAddresses.
  emits.
  all: apply resolveBootnodes_emitsOnly; intros e He;
    apply (isTCPLog_not_dial e He).
Qed.

Lemma Start_no_dial_without_relay env :
  RelayNodeAddr (cfg env) = "" ->
  emitsOnly (fun e => isDialEvent e = false) (Start env).
Proof.
  intros Hrelay.
  unfold Start, startPrelude, awaitStateInitialized, dialRelay,
    startDiscovery, connectToBootnodes, connectWithAllPeers, startRunning,
    dialStaticPeers, connectWithAllTrustedPeers, registerPeriodics,
    logAddresses.
  destruct (decide (RelayNodeAddr (cfg env) = "")) as [_|Hne];
    [|contradiction].
  emits.
  all: apply resolveBootnodes_emitsOnly; intros e He;
    apply (isTCPLog_not_dial e He).
Qed.

(** X4.  [Start] makes no peer dial on its own flow of control: whatever it
    adds to the trace, no entry is one of the calls of [connectWithPeer]
    ([IsBad], [host.Connect], [Increment]), and no bad-response count
    changes; the dials of bootstrap nodes and static peers are left to
    goroutines.  The one dial [Start] makes itself is that of the relay node,
    and with no relay configured it makes none. *)
Theorem Start_never_dials env w :
  (exists evs,
     trace (final (Start env w)) = trace w ++ evs /\
     Forall (fun e => isPeerCall e = false) evs /\
     (RelayNodeAddr (cfg env) = "" ->
      Forall (fun e => isDialEvent e = false) evs)) /\
  badResponses (peers (final (Start env w))) = badResponses (peers w).
Proof.
  split.
  - destruct (Start_no_peer_call env w) as (evs & Ht & Hp).
    exists evs. split; [exact Ht|]. split; [exact Hp|]. intros Hrelay.
    destruct (Start_no_dial_without_relay env Hrelay w) as (evs' & Ht' & Hd).
    rewrite Ht in Ht'. apply app_inv_head in Ht'. now subst evs'.
  - revert w.
    change (keeps (fun w => badResponses (peers w)) (Start env)).
    unfold Start, startPrelude, awaitStateInitialized, dialRelay,
      startDiscovery, connectToBootnodes, connectWithAllPeers, startRunning,
      dialStaticPeers, connectWithAllTrustedPeers, registerPeriodics,
      logAddresses.
    frame.
    all: now apply resolveBootnodes_keeps.
Qed.

Lemma Start_never_dials_witness :
  exists evs,
    trace (final (Start envBootMixed newWorld)) = [] ++ evs /\
    Forall (fun e => isPeerCall e = false) evs /\
    Forall (fun e => isDialEvent e = false) evs.
Proof.
  destruct (proj1 (Start_never_dials envBootMixed newWorld))
    as (evs & Ht & Hp & Hd).
  exists evs. split; [exact Ht|]. split; [exact Hp|]. now apply Hd.
Defined.

Lemma Stop_run w :
  Stop w
    = Ok None
        (traced (mkWorld false (isPreGenesis w) (startupErr w) (genesisTime w)
                         (genesisValidatorsRoot w) (dv5Listener w) (peers w)
                         (trace w) (goroutines w) (periodics w))
                (match dv5Listener w with
                 | Some l => [EvListenerClose l; EvCancel]
                 | None => [EvCancel]
                 end)).
Proof.
  unfold Stop. run. destruct (dv5Listener w); cbn; unfold traced; cbn;
    rewrite <- ?app_assoc; reflexivity.
Qed.

(** X5.  [Stop] can be called again: the second call returns nil like the
    first, and since [Stop] leaves the listener field as it is, it closes the
    same listener and cancels the context a second time.  Neither call
    touches the startup error, the genesis data, the pre-genesis flag or the
    registered periodic functions. *)
Theorem Stop_twice w :
  exists w1 w2,
    Stop w = Ok None w1 /\
    Stop w1 = Ok None w2 /\
    started w2 = false /\
    dv5Listener w2 = dv5Listener w /\
    trace w2 = trace w ++
      match dv5Listener w with
      | Some l => [EvListenerClose l; EvCancel; EvListenerClose l; EvCancel]
      | None => [EvCancel; EvCancel]
      end /\
    startupErr w2 = startupErr w /\
    isPreGenesis w2 = isPreGenesis w /\
    genesisTime w2 = genesisTime w /\
    periodics w2 = periodics w.
Proof.
  eexists. eexists. split; [apply Stop_run|]. split; [apply Stop_run|].
  cbn. destruct (dv5Listener w); cbn; rewrite <- ?app_assoc; repeat split.
Qed.

Lemma preserves_and {A} (I J : World -> Prop) (m : M A) :
  preserves I m -> preserves J m -> preserves (fun w => I w /\ J w) m.
Proof. intros HI HJ w [Hi Hj]. split; [now apply HI | now apply HJ]. Qed.

Lemma Start_keeps_post_genesis env :
  preserves (fun w => isPreGenesis w = false) (Start env).
Proof.
  unfold Start, startPrelude, awaitStateInitialized, dialRelay,
    startDiscovery, connectToBootnodes, connectWithAllPeers, startRunning,
    dialStaticPeers, connectWithAllTrustedPeers, registerPeriodics,
    logAddresses.
  inv_frame.
  all: apply (preserves_keeps isPreGenesis (fun b => b = false)),
         resolveBootnodes_keeps; reflexivity.
Qed.

Lemma Start_keeps_startup_error env :
  preserves (fun w => startupErr w <> None) (Start env).
Proof.
  unfold Start, startPrelude, awaitStateInitialized, dialRelay,
    startDiscovery, connectToBootnodes, connectWithAllPeers, startRunning,
    dialStaticPeers, connectWithAllTrustedPeers, registerPeriodics,
    logAddresses.
  inv_frame.
  all: apply (preserves_keeps startupErr (fun e => e <> None)),
         resolveBootnodes_keeps; reflexivity.
Qed.

Lemma Stop_preserves (I : World -> Prop) :
  (forall w evs,
     I w ->
     I (traced (mkWorld false (isPreGenesis w) (startupErr w) (genesisTime w)
                        (genesisValidatorsRoot w) (dv5Listener w) (peers w)
                        (trace w) (goroutines w) (periodics w)) evs)) ->
  preserves I Stop.
Proof. intros H w Hw. rewrite Stop_run. cbn [final]. now apply H. Qed.

Lemma runOps_preserves (I : World -> Prop) ops :
  (forall env, preserves I (Start env)) -> preserves I Stop ->
  preserves I (runOps ops).
Proof.
  intros HStart HStop. induction ops as [|[env|] ops IH]; cbn.
  - apply preserves_ret.
  - apply preserves_bind; [apply HStart | intros _; exact IH].
  - apply preserves_bind; [apply HStop | intros _; exact IH].
Qed.

(** X6.  A startup error is never cleared.  Once the service has left the
    pre-genesis phase with a startup error on record, no sequence of [Start]
    and [Stop] calls, whatever the collaborators answer, brings [Status] back
    to nil. *)
Theorem startup_error_is_sticky ops w :
  isPreGenesis w = false ->
  startupErr w <> None ->
  Status (final (runOps ops w)) <> None.
Proof.
  intros Hpre Herr.
  assert (I : isPreGenesis (final (runOps ops w)) = false /\
              startupErr (final (runOps ops w)) <> None).
  { apply (runOps_preserves
             (fun w => isPreGenesis w = false /\ startupErr w <> None)).
    - intros env. apply preserves_and;
        [apply Start_keeps_post_genesis | apply Start_keeps_startup_error].
    - apply Stop_preserves. intros w0 evs H. exact H.
    - now split. }
  destruct I as [Hp He]. unfold Status. rewrite Hp.
  destruct (started (final (runOps ops w))); cbn; [|discriminate].
  destruct (startupErr (final (runOps ops w))); [discriminate|contradiction].
Qed.

Lemma startup_error_is_sticky_witness :
  Status (final (runOps [OpStart envBootMalformed; OpStop;
                         OpStart envBootMixed] newWorld))
    = Some (ErrNew "invalid URL scheme") /\
  Status (final (runOps [OpStop; OpStart envBootMixed]
                        (final (Start envBootMalformed newWorld)))) <> None.
Proof.
  split; [vm_compute; reflexivity|].
  apply (startup_error_is_sticky [OpStop; OpStart envBootMixed]
           (final (Start envBootMalformed newWorld)));
    [reflexivity | discriminate].
Defined.

(** X7.  A started service is never pre-genesis: the property holds of the
    service [NewHost] builds and is kept by every [Start] and [Stop].  So in
    a started service [Status] is decided by the startup error and the
    genesis time alone. *)
Theorem started_is_post_genesis ops :
  let w := final (runOps ops newWorld) in
  (started w = true -> isPreGenesis w = false) /\
  (started w = true ->
   Status w = match startupErr w with
              | Some e => Some e
              | None => if IsZero (genesisTime w)
                        then Some (ErrNew "no genesis time set") else None
              end).
Proof.
  cbv zeta.
  assert (I : started (final (runOps ops newWorld)) = true ->
              isPreGenesis (final (runOps ops newWorld)) = false).
  { apply (runOps_preserves
             (fun w => started w = true -> isPreGenesis w = false)).
    - intros env w Hw Hs. destruct (started w) eqn:Es.
      + rewrite (Start_on_started env w Es). cbn. now apply Hw.
      + now apply Start_ends_pre_genesis.
    - apply Stop_preserves. intros w0 evs _. cbn. discriminate.
    - cbn. discriminate. }
  split; [exact I|]. intros Hs. unfold Status. now rewrite (I Hs), Hs.
Qed.

Lemma started_is_post_genesis_witness :
  let w := final (runOps [OpStop; OpStart envBootMixed] newWorld) in
  started w = true /\ isPreGenesis w = false /\ Status w = None.
Proof.
  cbv zeta.
  pose proof (started_is_post_genesis [OpStop; OpStart envBootMixed])
    as [H1 H2]. cbv zeta in H1, H2.
  split; [reflexivity|]. split; [apply H1; reflexivity|].
  rewrite H2 by reflexivity. reflexivity.
Defined.

(** ** The genesis gate, again *)

(** X8.  On an uninitialized service whose clock waiter hands over a clock,
    the gate records the clock's genesis time and the 32 bytes of its root
    and returns; the service is initialized from then on exactly when that
    genesis time is not the zero time, and if so the next call of the gate
    returns at once without a second wait.  When the waiter answers an error
    instead, the process ends at the fatal log and nothing is recorded. *)
Theorem awaitStateInitialized_records env w :
  isInitialized w = false ->
  match WaitForClock env (trace w) with
  | inl clock =>
      exists w1,
        awaitStateInitialized env w = Ok tt w1 /\
        genesisTime w1 = GenesisTime clock /\
        genesisValidatorsRoot w1
          = vec_to_list (GenesisValidatorsRoot clock) /\
        length (genesisValidatorsRoot w1) = 32%nat /\
        isInitialized w1 = negb (IsZero (GenesisTime clock)) /\
        (IsZero (GenesisTime clock) = false ->
         awaitStateInitialized env w1 = Ok tt w1)
  | inr e =>
      awaitStateInitialized env w
        = Exit (traced w [EvWaitForClock;
                          EvLog LFatal "failed to receive initial genesis data"
                                (Some e)])
  end.
Proof.
  intros Hinit. destruct (WaitForClock env (trace w)) as [clock|e] eqn:Hclock.
  - destruct (awaitStateInitialized_clock env w clock Hinit Hclock)
      as (w1 & Hrun & Ht & Hr & _).
    exists w1.
    assert (Hlen : length (genesisValidatorsRoot w1) = 32%nat)
      by (rewrite Hr; apply length_vec_to_list).
    assert (Hi : isInitialized w1 = negb (IsZero (GenesisTime clock))).
    { unfold isInitialized. rewrite Ht, Hlen. cbn. apply andb_true_r. }
    repeat (split; [assumption|]). intros Hz.
    unfold awaitStateInitialized. erewrite bind_Ok by reflexivity.
    rewrite Hi, Hz. reflexivity.
  - now apply awaitStateInitialized_error.
Qed.

Lemma awaitStateInitialized_records_witness :
  exists w1,
    awaitStateInitialized envMallory newWorld = Ok tt w1 /\
    genesisTime w1 = mkTime 1606824023 0 /\
    genesisValidatorsRoot w1 = vec_to_list sampleRoot /\
    length (genesisValidatorsRoot w1) = 32%nat /\
    isInitialized w1 = true /\
    (IsZero (mkTime 1606824023 0) = false ->
     awaitStateInitialized envMallory w1 = Ok tt w1).
Proof.
  exact (awaitStateInitialized_records envMallory newWorld eq_refl).
Defined.

(** ** Dialing, again *)

(** X9.  A dial that succeeds leaves no mark but the two calls it makes: for
    a peer that is not the local identity and not reported bad, when
    [host.Connect] answers nil, [connectWithPeer] returns nil, calls [IsBad]
    and [host.Connect] once each and nothing else, and changes no score; the
    goroutine around it logs nothing. *)
Theorem connectWithPeer_success env info w :
  ID info <> hostID env ->
  IsBad env (peers w) (ID info) = None ->
  hostConnect env (trace w ++ [EvIsBad (ID info)]) info = None ->
  connectWithPeer env info w
    = Ok None (traced w [EvIsBad (ID info); EvConnect info]) /\
  dialGoroutine env info w
    = Ok tt (traced w [EvIsBad (ID info); EvConnect info]).
Proof.
  intros Hne Hgood Hdial.
  assert (E : connectWithPeer env info w
              = Ok None (traced w [EvIsBad (ID info); EvConnect info])).
  { unfold connectWithPeer.
    destruct (decide (ID info = hostID env)) as [Heq|_]; [contradiction|].
    unfold Peers_IsBad, host_Connect. run. rewrite Hgood. cbn.
    rewrite Hdial. cbn. unfold traced. cbn. now rewrite <- app_assoc. }
  split; [exact E|]. unfold dialGoroutine.
  erewrite bind_Ok by exact E. reflexivity.
Qed.

Lemma connectWithPeer_success_witness :
  connectWithPeer envMallory (sampleInfo "alice") newWorld
    = Ok None (traced newWorld [EvIsBad "alice"; EvConnect (sampleInfo "alice")]) /\
  dialGoroutine envMallory (sampleInfo "alice") newWorld
    = Ok tt (traced newWorld [EvIsBad "alice"; EvConnect (sampleInfo "alice")]).
Proof.
  apply (connectWithPeer_success envMallory (sampleInfo "alice") newWorld).
  - cbn. discriminate.
  - reflexivity.
  - reflexivity.
Defined.

(** All a dial goroutine can do to the peer status store is one [Increment]
    of the peer it dials, and never of the local identity. *)
Lemma dialGoroutine_effect env info w :
  exists w',
    dialGoroutine env info w = Ok tt w' /\
    (peers w' = peers w \/
     peers w' = Peers_Increment (ID info) (peers w) /\ ID info <> hostID env).
Proof.
  unfold dialGoroutine.
  destruct (decide (ID info = hostID env)) as [Heq|Hne].
  - erewrite bind_Ok by (now apply connectWithPeer_self).
    eexists. split; [reflexivity|]. now left.
  - destruct (IsBad env (peers w) (ID info)) as [e|] eqn:Hbad.
    + erewrite bind_Ok by (apply connectWithPeer_bad; eassumption).
      eexists. split; [reflexivity|]. now left.
    + unfold connectWithPeer.
      destruct (decide (ID info = hostID env)) as [Heq|_]; [contradiction|].
      unfold Peers_IsBad, host_Connect, BadResponsesScorer_Increment. run.
      rewrite Hbad. cbn.
      destruct (hostConnect env (trace w ++ [EvIsBad (ID info)]) info);
        cbn; eexists; (split; [reflexivity|]); cbn; [right|left]; auto.
Qed.

(** X10.  Failures stay with the peer that failed.  However a batch of dial
    goroutines goes, run one after the other, the batch returns; the trust
    set and the peer records are untouched; no bad-response count goes down; a
    peer's count goes up by at most the number of dials to it in the batch,
    so a peer that is not dialed keeps its count; and the count of the local
    identity never moves. *)
Theorem runDials_scores env infos : forall w,
  exists w',
    runDials env infos w = Ok tt w' /\
    trustedPeers (peers w') = trustedPeers (peers w) /\
    records (peers w') = records (peers w) /\
    forall pid,
      (badResponseCount (peers w) pid <= badResponseCount (peers w') pid)%nat /\
      (badResponseCount (peers w') pid
         <= badResponseCount (peers w) pid
            + length (filter (fun info => ID info = pid) infos))%nat /\
      (pid = hostID env ->
       badResponseCount (peers w') pid = badResponseCount (peers w) pid).
Proof.
  unfold runDials. induction infos as [|info infos IH]; intros w.
  - exists w. cbn. repeat split; lia.
  - destruct (dialGoroutine_effect env info w) as (w1 & E1 & Hp).
    destruct (IH w1) as (w' & E' & Ht & Hr & Hc).
    exists w'. cbn [forEach]. erewrite bind_Ok by exact E1.
    split; [exact E'|].
    destruct Hp as [Hp|[Hp Hne]]; rewrite Hp in Ht, Hr, Hc.
    + split; [exact Ht|]. split; [exact Hr|]. intros pid.
      destruct (Hc pid) as (Ha & Hb & Hs). rewrite filter_cons.
      destruct (decide (ID info = pid)); cbn [length];
        repeat split; auto; lia.
    + split; [exact Ht|]. split; [exact Hr|]. intros pid.
      destruct (Hc pid) as (Ha & Hb & Hs). rewrite filter_cons.
      destruct (decide (ID info = pid)) as [<-|Hpid]; cbn [length].
      * rewrite badResponseCount_Increment_eq in Ha, Hb, Hs.
        repeat split; try lia. intros Heq. congruence.
      * rewrite badResponseCount_Increment_ne in Ha, Hb, Hs by congruence.
        repeat split; auto.
Qed.

Lemma runDials_scores_witness :
  exists w',
    runDials envUnreachable
      [sampleInfo "carol"; sampleInfo "self"; sampleInfo "carol"] newWorld
      = Ok tt w' /\
    badResponseCount (peers w') "carol" = 2%nat /\
    badResponseCount (peers w') "self" = 0%nat /\
    badResponseCount (peers w') "dave" = 0%nat.
Proof.
  destruct (runDials_scores envUnreachable
              [sampleInfo "carol"; sampleInfo "self"; sampleInfo "carol"]
              newWorld) as (w' & Hrun & _ & _ & Hc).
  exists w'. split; [exact Hrun|].
  assert (Hw : Ok tt w' = runDials envUnreachable
              [sampleInfo "carol"; sampleInfo "self"; sampleInfo "carol"]
              newWorld) by (symmetry; exact Hrun).
  vm_compute in Hw. injection Hw as ->. split; [reflexivity|].
  split.
  - exact (proj2 (proj2 (Hc "self")) eq_refl).
  - destruct (Hc "dave") as (_ & Hb & _). vm_compute in Hb.
    vm_compute. lia.
Defined.

(** ** Trusted peers *)

Lemma withTrusted_nil w : withTrusted w [] = w.
Proof.
  destruct w as [? ? ? ? ? ? [? ? ?] ? ? ?]. unfold withTrusted, addEvents.
  cbn. now rewrite !app_nil_r.
Qed.

Lemma withTrusted_cons w info a rest infos :
  Addrs info = a :: rest ->
  withTrusted
    (mkWorld (started w) (isPreGenesis w) (startupErr w) (genesisTime w)
             (genesisValidatorsRoot w) (dv5Listener w)
             (Peers_Add (ID info) a (peers w))
             (trace w ++ [EvPeersAdd (ID info) a])
             (goroutines w ++ [GoConnectWithPeer info]) (periodics w))
    infos
  = withTrusted w (info :: infos).
Proof.
  intros Ha. unfold withTrusted, addEvents, firstAddrs. cbn. rewrite Ha. cbn.
  now rewrite <- !app_assoc.
Qed.

(** The loop of [connectWithAllTrustedPeers] as long as every peer has an
    address. *)
Lemma trustedLoop_all infos : forall w,
  Forall (fun info => Addrs info <> []) infos ->
  forEach (fun info =>
             match Addrs info with
             | [] => panic
             | a :: _ =>
                 emit (EvPeersAdd (ID info) a) ;;
                 onPeers (Peers_Add (ID info) a)
             end ;;
             go (GoConnectWithPeer info)) infos w
  = Ok tt (withTrusted w infos).
Proof.
  induction infos as [|info infos IH]; intros w Hall.
  - cbn. now rewrite withTrusted_nil.
  - inversion Hall as [|? ? Hne Hrest]; subst. cbn [forEach].
    destruct (Addrs info) as [|a rest] eqn:Ha; [contradiction|].
    erewrite bind_Ok by reflexivity. rewrite IH by exact Hrest.
    f_equal. now apply (withTrusted_cons w info a rest).
Qed.

(** X11.  When the static addresses resolve and every resolved peer has an
    address, [connectWithAllTrustedPeers] goes through the peers in order:
    each is added to the peer status store with its first address, and its
    dial is launched, one goroutine per peer; the trust set and the scores
    are not touched, and no dial is made on the caller's flow of control. *)
Theorem connectWithAllTrustedPeers_all env multiAddrs infos w :
  AddrInfosFromP2pAddrs env multiAddrs = inl infos ->
  Forall (fun info => Addrs info <> []) infos ->
  connectWithAllTrustedPeers env multiAddrs w = Ok tt (withTrusted w infos) /\
  goroutines (withTrusted w infos)
    = goroutines w ++ map GoConnectWithPeer infos /\
  length (firstAddrs infos) = length infos /\
  map fst (firstAddrs infos) = map ID infos.
Proof.
  intros Hres Hall. split; [|split; [reflexivity|]].
  - unfold connectWithAllTrustedPeers. rewrite Hres.
    now apply trustedLoop_all.
  - clear Hres. induction Hall as [|info infos Hne _ [IH1 IH2]];
      [split; reflexivity|].
    unfold firstAddrs in *. cbn.
    destruct (Addrs info) as [|a rest]; [contradiction|]. cbn.
    now rewrite IH1, IH2.
Qed.

Lemma connectWithAllTrustedPeers_all_witness :
  connectWithAllTrustedPeers envStatic ["peerA"; "peerB"; "peerC"] newWorld
    = Ok tt (withTrusted newWorld
               [sampleInfo "peerA"; sampleInfo "peerB"; sampleInfo "peerC"]) /\
  goroutines (withTrusted newWorld
                [sampleInfo "peerA"; sampleInfo "peerB"; sampleInfo "peerC"])
    = [] ++ map GoConnectWithPeer
              [sampleInfo "peerA"; sampleInfo "peerB"; sampleInfo "peerC"] /\
  length (firstAddrs
            [sampleInfo "peerA"; sampleInfo "peerB"; sampleInfo "peerC"])
    = 3%nat /\
  map fst (firstAddrs
             [sampleInfo "peerA"; sampleInfo "peerB"; sampleInfo "peerC"])
    = ["peerA"; "peerB"; "peerC"].
Proof.
  apply (connectWithAllTrustedPeers_all envStatic
           ["peerA"; "peerB"; "peerC"]
           [sampleInfo "peerA"; sampleInfo "peerB"; sampleInfo "peerC"]
           newWorld).
  - reflexivity.
  - repeat constructor; discriminate.
Defined.

(** X12.  A resolved peer without any address makes
    [connectWithAllTrustedPeers] panic on [info.Addrs[0]]: the peers before
    it have been added and their dials launched, the peer itself and the
    peers after it are neither added nor dialed. *)
Theorem connectWithAllTrustedPeers_panics env multiAddrs pre bad post w :
  AddrInfosFromP2pAddrs env multiAddrs = inl (pre ++ bad :: post) ->
  Forall (fun info => Addrs info <> []) pre ->
  Addrs bad = [] ->
  connectWithAllTrustedPeers env multiAddrs w = Panic (withTrusted w pre).
Proof.
  intros Hres Hall Hbad. unfold connectWithAllTrustedPeers. rewrite Hres.
  clear Hres. revert w. induction Hall as [|info pre Hne _ IH]; intros w.
  - cbn [app forEach]. rewrite Hbad.
    erewrite bind_Panic; [now rewrite withTrusted_nil|].
    erewrite bind_Panic; reflexivity.
  - cbn [app forEach].
    destruct (Addrs info) as [|a rest] eqn:Ha; [contradiction|].
    erewrite bind_Ok by reflexivity. rewrite IH.
    f_equal. now apply (withTrusted_cons w info a rest).
Qed.

Lemma connectWithAllTrustedPeers_panics_witness :
  connectWithAllTrustedPeers
    (mkEnv (cfg envStatic) "self" (WaitForClock envStatic)
           (currentForkDigest envStatic) reachable (dialRelayNode envStatic)
           discoveryUp sampleParse sampleLoadTCP sampleIsNotFound
           (fun nodes => nodes)
           (fun _ => inl [sampleInfo "peerA"; mkAddrInfo "peerB" [];
                          sampleInfo "peerC"])
           (fun addrs => (addrs, None)) (fun addrs => addrs) neverBad
           None None None None None (5 * Second) 10 (12 * Second))
    ["peerA"; "/p2p/peerB"; "peerC"] newWorld
  = Panic (withTrusted newWorld [sampleInfo "peerA"]).
Proof.
  apply (connectWithAllTrustedPeers_panics _ _ [sampleInfo "peerA"]
           (mkAddrInfo "peerB" []) [sampleInfo "peerC"]).
  - reflexivity.
  - repeat constructor; discriminate.
  - reflexivity.
Defined.

Lemma connectWithAllTrustedPeers_no_registration env multiAddrs :
  emitsOnly (fun e => isSetTrusted e = false)
            (connectWithAllTrustedPeers env multiAddrs).
Proof. unfold connectWithAllTrustedPeers. emits. Qed.

(** X13.  The static peers step registers the trusted peers with one call:
    with no static peer configured it does nothing at all; with some, it
    calls [SetTrustedPeers] exactly once, with the identities of the
    addresses the conversion gave back, before any peer is added or dialed,
    and it does so also when the conversion reported an error, which it only
    logs first. *)
Theorem dialStaticPeers_registers env w :
  (StaticPeers (cfg env) = [] -> dialStaticPeers env w = Ok tt w) /\
  (StaticPeers (cfg env) <> [] ->
   exists evs,
     trace (final (dialStaticPeers env w))
       = trace w ++
         match snd (PeersFromStringAddrs env (StaticPeers (cfg env))) with
         | Some e => [EvLog LError "could not convert ENR to multiaddr" (Some e)]
         | None => []
         end ++
         EvSetTrustedPeers
           (peerIdsFromMultiAddrs env
              (fst (PeersFromStringAddrs env (StaticPeers (cfg env)))))
         :: evs /\
     Forall (fun e => isSetTrusted e = false) evs).
Proof.
  unfold dialStaticPeers. split.
  - intros ->. reflexivity.
  - intros Hne. destruct (StaticPeers (cfg env)) as [|sp rest] eqn:Hsp;
      [contradiction|]. cbn [length Nat.ltb Nat.leb].
    destruct (PeersFromStringAddrs env (sp :: rest)) as [addrs err].
    cbn [fst snd].
    assert (Hset : forall w0, exists evs,
      trace (final
        ((emit (EvSetTrustedPeers (peerIdsFromMultiAddrs env addrs)) ;;
          onPeers (Peers_SetTrustedPeers (peerIdsFromMultiAddrs env addrs)) ;;
          connectWithAllTrustedPeers env addrs) w0))
      = trace w0 ++
          EvSetTrustedPeers (peerIdsFromMultiAddrs env addrs) :: evs /\
      Forall (fun e => isSetTrusted e = false) evs).
    { intros w0. erewrite bind_Ok by reflexivity.
      erewrite bind_Ok by reflexivity.
      match goal with
      | |- context [connectWithAllTrustedPeers env addrs ?w1] =>
          destruct (connectWithAllTrustedPeers_no_registration env addrs w1)
            as (evs & Ht & Hevs)
      end.
      exists evs. split; [|exact Hevs]. rewrite Ht. cbn.
      now rewrite <- app_assoc. }
    destruct err as [e|]; cbn [whenErr].
    + erewrite bind_Ok by reflexivity.
      match goal with
      | |- context [final (_ ?w1)] => destruct (Hset w1) as (evs & Ht & Hevs)
      end.
      exists evs. split; [|exact Hevs]. rewrite Ht. cbn.
      now rewrite <- app_assoc.
    + erewrite bind_Ok by reflexivity. apply Hset.
Qed.

Lemma dialStaticPeers_registers_witness :
  exists evs,
    trace (final (dialStaticPeers envStatic newWorld))
      = [] ++ [] ++ EvSetTrustedPeers ["peerA"; "peerB"; "peerC"] :: evs /\
    Forall (fun e => isSetTrusted e = false) evs.
Proof.
  apply (proj2 (dialStaticPeers_registers envStatic newWorld)).
  discriminate.
Defined.

(** ** Construction *)

(** X14.  [NewHost] builds a service exactly when none of its five steps
    fails, and the service it builds is stopped, pre-genesis and healthy,
    with nothing launched or registered.  Otherwise it returns no service but
    an error whose cause is the error of the first step that failed, in the
    order key, metadata, address filter, options, libp2p host. *)
Theorem NewHost_result env :
  match firstConstructionError env with
  | None =>
      NewHost env = ([], inl newWorld) /\
      started newWorld = false /\ isPreGenesis newWorld = true /\
      Status newWorld = None /\
      goroutines newWorld = [] /\ periodics newWorld = []
  | Some e0 =>
      exists e, snd (NewHost env) = inr e /\ Cause e = Cause e0
  end.
Proof.
  unfold firstConstructionError, NewHost.
  destruct (privKey env) as [e1|]; [eexists; split; reflexivity|].
  destruct (metaDataFromConfig env) as [e2|]; [eexists; split; reflexivity|].
  destruct (configureFilter env) as [e3|]; [eexists; split; reflexivity|].
  destruct (buildOptions env) as [e4|]; [eexists; split; reflexivity|].
  destruct (libp2pNew env) as [e5|]; [eexists; split; reflexivity|].
  repeat split.
Qed.

(** ** Without discovery *)

Lemma Start_no_discovery_keeps_listener env :
  NoDiscovery (cfg env) = true -> keeps dv5Listener (Start env).
Proof.
  intros Hcfg.
  unfold Start, startPrelude, awaitStateInitialized, dialRelay,
    startDiscovery, startRunning, dialStaticPeers,
    connectWithAllTrustedPeers, registerPeriodics, logAddresses.
  rewrite Hcfg. frame.
Qed.

Lemma Start_no_discovery_trace env :
  NoDiscovery (cfg env) = true ->
  emitsOnly (fun e => isDiscoveryStart e = false) (Start env).
Proof.
  intros Hcfg.
  unfold Start, startPrelude, awaitStateInitialized, dialRelay,
    startDiscovery, startRunning, dialStaticPeers,
    connectWithAllTrustedPeers, registerPeriodics, logAddresses.
  rewrite Hcfg. emits.
Qed.

(** X15.  With discovery disabled, [Start] never starts a discovery listener
    and stores none, whatever else it does.  On a service that had no
    listener, [ENR] is then nil and [DiscoveryAddresses] is empty with no
    error, while [pingPeersAndLogEnr], which does not test the listener
    before it asks it for the local node, panics. *)
Theorem Start_without_discovery
    {NodeRecord : Type} (selfRecord : Listener -> NodeRecord)
    (convertToUdpMultiAddr : Listener -> list Multiaddr * option error)
    (connected : Peers -> list PeerID)
    (pingMethod : option (PeerID -> option error)) env w :
  NoDiscovery (cfg env) = true ->
  dv5Listener w = None ->
  (exists evs,
     trace (final (Start env w)) = trace w ++ evs /\
     Forall (fun e => isDiscoveryStart e = false) evs) /\
  dv5Listener (final (Start env w)) = None /\
  ENR NodeRecord selfRecord (final (Start env w)) = None /\
  DiscoveryAddresses convertToUdpMultiAddr (final (Start env w)) = ([], None) /\
  pingPeersAndLogEnr connected pingMethod (final (Start env w))
    = Panic (final (Start env w)).
Proof.
  intros Hcfg Hl.
  pose proof (Start_no_discovery_keeps_listener env Hcfg w) as Hk.
  rewrite Hl in Hk.
  split; [apply (Start_no_discovery_trace env Hcfg)|].
  split; [exact Hk|].
  unfold ENR, DiscoveryAddresses, pingPeersAndLogEnr.
  erewrite bind_Ok by reflexivity. rewrite Hk. repeat split.
Qed.

Lemma Start_without_discovery_witness :
  (exists evs,
     trace (final (Start envNoDiscovery newWorld)) = [] ++ evs /\
     Forall (fun e => isDiscoveryStart e = false) evs) /\
  dv5Listener (final (Start envNoDiscovery newWorld)) = None /\
  ENR string (fun l => l) (final (Start envNoDiscovery newWorld)) = None /\
  DiscoveryAddresses (fun l => ([l], None))
    (final (Start envNoDiscovery newWorld)) = ([], None) /\
  pingPeersAndLogEnr (fun _ => ["alice"]) (Some (fun _ => None))
    (final (Start envNoDiscovery newWorld))
    = Panic (final (Start envNoDiscovery newWorld)).
Proof.
  apply (Start_without_discovery (fun l => l) (fun l => ([l], None))
           (fun _ => ["alice"]) (Some (fun _ => None))
           envNoDiscovery newWorld);
    reflexivity.
Defined.

(** ** Bootstrap entries, again *)

Lemma resolveBootnodes_logs env addrs : forall nodes w,
  firstParseError env addrs = None ->
  resolveBootnodes env addrs nodes w
    = Ok (inl (nodes ++ dialableBootnodes env addrs))
         (traced w (tcpLoadLogs env addrs)).
Proof.
  induction addrs as [|addr rest IH]; intros nodes w Hall;
    cbn [resolveBootnodes firstParseError] in *.
  - change (dialableBootnodes env []) with (@nil string).
    change (tcpLoadLogs env []) with (@nil Event).
    now rewrite traced_nil, app_nil_r.
  - destruct (enodeParse env addr) as [n|err] eqn:Hp; [|discriminate].
    assert (Hlogs : tcpLoadLogs env (addr :: rest)
              = match loadTCP env n with
                | Some err =>
                    if enrIsNotFound env err then []
                    else [EvLog LError "Could not retrieve tcp port" (Some err)]
                | None => []
                end ++ tcpLoadLogs env rest).
    { unfold tcpLoadLogs, parsedBootnodes. cbn. rewrite Hp. cbn.
      destruct (loadTCP env n) as [terr|]; [|reflexivity].
      destruct (enrIsNotFound env terr); reflexivity. }
    rewrite Hlogs.
    destruct (loadTCP env n) as [terr|] eqn:Ht.
    + rewrite (dialableBootnodes_cons_no_tcp _ _ _ _ _ Hp Ht).
      destruct (enrIsNotFound env terr); cbn [negb].
      * erewrite bind_Ok by reflexivity. now apply IH.
      * erewrite bind_Ok by reflexivity. rewrite IH by exact Hall.
        now rewrite <- traced_traced.
    + rewrite (dialableBootnodes_cons_tcp _ _ _ _ Hp Ht).
      rewrite IH by exact Hall. now rewrite <- app_assoc.
Qed.

(** X16.  When the configured entries parse, [connectToBootnodes] returns nil
    whatever happens next, and logs exactly this: one error per record whose
    TCP entry fails to load for another reason than being absent, in the
    order of the configuration, and nothing for a record whose TCP entry is
    absent; then, if the addresses do not resolve to peers, one more error,
    in which case no dial is launched. *)
Theorem connectToBootnodes_logs env w :
  (forall addr, addr ∈ Discv5BootStrapAddrs (cfg env) ->
     exists n, enodeParse env addr = inl n) ->
  exists w',
    connectToBootnodes env w = Ok None w' /\
    trace w' = trace w ++ tcpLoadLogs env (Discv5BootStrapAddrs (cfg env)) ++
      match AddrInfosFromP2pAddrs env (convertToMultiAddr env
              (dialableBootnodes env (Discv5BootStrapAddrs (cfg env)))) with
      | inl _ => []
      | inr err =>
          [EvLog LError
             "Could not convert to peer address info's from multiaddresses"
             (Some err)]
      end /\
    match AddrInfosFromP2pAddrs env (convertToMultiAddr env
            (dialableBootnodes env (Discv5BootStrapAddrs (cfg env)))) with
    | inl infos => goroutines w' = goroutines w ++ map GoConnectWithPeer infos
    | inr _ => goroutines w' = goroutines w
    end.
Proof.
  intros Hall. apply firstParseError_None in Hall.
  unfold connectToBootnodes.
  erewrite bind_Ok by (apply resolveBootnodes_logs; exact Hall).
  cbv beta iota. cbn [app]. unfold connectWithAllPeers.
  destruct (AddrInfosFromP2pAddrs env _) as [infos|err].
  - erewrite bind_Ok by apply forEach_go.
    eexists. split; [reflexivity|]. cbn. now rewrite app_nil_r.
  - erewrite bind_Ok by reflexivity.
    eexists. split; [reflexivity|]. cbn. now rewrite <- app_assoc.
Qed.

Lemma connectToBootnodes_logs_witness :
  exists w',
    connectToBootnodes envBootMixed newWorld = Ok None w' /\
    trace w' = [] /\
    goroutines w' = [GoConnectWithPeer (sampleInfo "enr:a");
                     GoConnectWithPeer (sampleInfo "enr:b")].
Proof.
  destruct (connectToBootnodes_logs envBootMixed newWorld) as (w' & H1 & H2 & H3).
  - intros addr Hin. cbn in Hin.
    repeat (apply elem_of_cons in Hin; destruct Hin as [->|Hin]);
      [eexists; reflexivity ..|]. inversion Hin.
  - exists w'. split; [exact H1|]. split; [exact H2 | exact H3].
Defined.

(** ** Intervals *)

Lemma wrap64_small z : - 2 ^ 63 <= z < 2 ^ 63 -> wrap64 z = z.
Proof. intros H. unfold wrap64. rewrite Z.mod_small; lia. Qed.

Lemma wrap64_range z : - 2 ^ 63 <= wrap64 z < 2 ^ 63.
Proof.
  unfold wrap64. pose proof (Z.mod_pos_bound (z + 2 ^ 63) (2 ^ 64)). lia.
Qed.

(** X17.  The metrics task is registered with an interval of [RespTimeout]
    seconds when that value is positive and its count of nanoseconds fits 64
    bits, that is up to 9223372036 seconds.  When the product is not
    positive, as for a [RespTimeout] of zero or one whose product wraps
    below zero, the ticker panics and [registerPeriodics] stops after the
    first two registrations.  Above 9223372036 a run that returns has
    registered a wrapped interval, not the one configured. *)
Theorem metrics_interval env relay w :
  0 < TtfbTimeoutDuration env ->
  (0 < RespTimeout env <= 9223372036 -> 0 < refreshRate env ->
   registerPeriodics env relay w
     = Ok tt (registered w
         [ (TtfbTimeoutDuration env, PEnsurePeerConnections relay);
           (30 * Minute, PPrune);
           (RespTimeout env * Second, PUpdateMetrics);
           (refreshRate env, PRefreshPersistentSubnets);
           (1 * Minute, PLogConnectedPeers) ])) /\
  (wrap64 (wrap64 (RespTimeout env) * Second) <= 0 ->
   registerPeriodics env relay w
     = Panic (registered w
         [ (TtfbTimeoutDuration env, PEnsurePeerConnections relay);
           (30 * Minute, PPrune) ])) /\
  (RespTimeout env = 0 ->
   wrap64 (wrap64 (RespTimeout env) * Second) <= 0) /\
  (9223372036 < RespTimeout env ->
   forall w', registerPeriodics env relay w = Ok tt w' ->
   exists d, periodics w' !! (length (periodics w) + 2)%nat
               = Some (d, PUpdateMetrics) /\
             d <> RespTimeout env * Second).
Proof.
  intros Ht. split; [|split; [|split]].
  - intros Hr Hf.
    assert (Hw : wrap64 (wrap64 (RespTimeout env) * Second)
                 = RespTimeout env * Second).
    { unfold Second. rewrite (wrap64_small (RespTimeout env)) by lia.
      rewrite wrap64_small by lia. reflexivity. }
    rewrite registerPeriodics_Ok; [now rewrite Hw|].
    unfold intervalsPositive. rewrite Hw. unfold Second. lia.
  - intros Hw. unfold registerPeriodics, mbind, M_bind.
    rewrite RunEvery_run.
    destruct (Z.leb_spec (TtfbTimeoutDuration env) 0); [lia|].
    rewrite RunEvery_run.
    replace (30 * Minute <=? 0) with false by reflexivity.
    rewrite RunEvery_run.
    destruct (Z.leb_spec (wrap64 (wrap64 (RespTimeout env) * Second)) 0);
      [|lia].
    now rewrite registered_registered.
  - intros ->. vm_compute. discriminate.
  - intros Hr w' Hrun.
    apply registerPeriodics_inv in Hrun as (_ & ->).
    eexists. split.
    + unfold registered. cbn [periodics].
      rewrite lookup_app_r by lia.
      replace (length (periodics w) + 2 - length (periodics w))%nat
        with 2%nat by lia.
      reflexivity.
    + pose proof (wrap64_range (wrap64 (RespTimeout env) * Second)).
      unfold Second in *. lia.
Qed.

Lemma metrics_interval_witness :
  registerPeriodics envBootMixed [] newWorld
    = Ok tt (registered newWorld
        [ (5 * Second, PEnsurePeerConnections []);
          (30 * Minute, PPrune);
          (10 * Second, PUpdateMetrics);
          (12 * Second, PRefreshPersistentSubnets);
          (1 * Minute, PLogConnectedPeers) ]).
Proof.
  apply (proj1 (metrics_interval envBootMixed [] newWorld
                  ltac:(reflexivity))).
  - split; [reflexivity | discriminate].
  - reflexivity.
Defined.

(** ** Panics *)

Lemma startRunning_returns_without_static env relayNodes :
  StaticPeers (cfg env) = [] ->
  intervalsPositive env ->
  returns (startRunning env relayNodes).
Proof.
  intros Hsp Hpos. unfold startRunning, dialStaticPeers, logAddresses.
  rewrite Hsp. cbn [length Nat.ltb Nat.leb]. frame.
  intros w. eexists. eexists. now apply registerPeriodics_Ok.
Qed.

(** X18.  With no static peer configured and every ticker interval positive,
    [Start] never panics, whatever its collaborators return: it returns, or
    the process ends at one of the two fatal logs.  If moreover the genesis
    gate lets it through and discovery is disabled, it returns and leaves a
    stopped service started. *)
Theorem Start_returns_without_static env :
  StaticPeers (cfg env) = [] ->
  intervalsPositive env ->
  neverPanics (Start env) /\
  (forall w,
     started w = false -> gatePasses env w -> NoDiscovery (cfg env) = true ->
     exists w', Start env w = Ok tt w' /\ started w' = true).
Proof.
  intros Hsp Hpos.
  assert (Hcases : forall w, started w = false ->
    (exists w', Start env w = Exit w') \/
    (exists w', Start env w = Ok tt w' /\
       (gatePasses env w -> NoDiscovery (cfg env) = true ->
        started w' = true))).
  { intros w Hs. rewrite (Start_not_started env w Hs).
    assert (Hgate : gatePasses env w \/
                    exists w1, awaitStateInitialized env w = Exit w1).
    { destruct (isInitialized w) eqn:Hinit; [left; now left|].
      destruct (WaitForClock env (trace w)) as [clock|e] eqn:Hclock.
      - left. right. now exists clock.
      - right. eexists.
        exact (awaitStateInitialized_error env w e Hinit Hclock). }
    destruct Hgate as [Hgate|(w1 & E)].
    2: { left. exists w1. unfold startPrelude.
         erewrite bind_Exit; [reflexivity|].
         erewrite bind_Exit; [reflexivity|exact E]. }
    destruct (startPrelude_passes env w Hgate) as (relay & w1 & E1).
    erewrite bind_Ok by exact E1.
    destruct (NoDiscovery (cfg env)) eqn:Hcfg.
    - destruct (startDiscovery_listener_up env w1 (or_introl Hcfg))
        as (proceed & w2 & E2).
      pose proof (startDiscovery_inv _ _ _ _ E2) as Hinv.
      erewrite bind_Ok by exact E2. destruct proceed.
      + destruct (startRunning_returns_without_static env relay Hsp Hpos w2)
          as ([] & w' & E3).
        right. exists w'. split; [exact E3|]. intros _ _.
        now destruct (startRunning_inv _ _ _ _ E3).
      + destruct Hinv as (Hno & _). congruence.
    - destruct (startDiscoveryV5 env (trace w1)) as [l|e] eqn:Hd.
      + destruct (startDiscovery_listener_up env w1
                    (or_intror (ex_intro _ l Hd)))
          as (proceed & w2 & E2).
        erewrite bind_Ok by exact E2. right. destruct proceed.
        * destruct (startRunning_returns_without_static env relay Hsp Hpos w2)
            as ([] & w' & E3).
          exists w'. split; [exact E3|]. intros _ H. discriminate.
        * exists w2. split; [reflexivity|]. intros _ H. discriminate.
      + left. eexists.
        erewrite bind_Exit; [reflexivity|].
        exact (startDiscovery_listener_failure env w1 e Hcfg Hd). }
  split.
  - intros w. destruct (started w) eqn:Hs.
    + now rewrite (Start_on_started env w Hs).
    + now destruct (Hcases w Hs) as [(w1 & ->)|(w1 & -> & _)].
  - intros w Hs Hgate Hcfg.
    destruct (Hcases w Hs) as [(w1 & E)|(w1 & E & Hst)].
    + exfalso. rewrite (Start_not_started env w Hs) in E.
      destruct (startPrelude_passes env w Hgate) as (relay & w2 & E1).
      erewrite bind_Ok in E by exact E1.
      destruct (startDiscovery_listener_up env w2 (or_introl Hcfg))
        as (proceed & w3 & E2).
      pose proof (startDiscovery_inv _ _ _ _ E2) as Hinv.
      erewrite bind_Ok in E by exact E2. destruct proceed.
      * destruct (startRunning_returns_without_static env relay Hsp Hpos w3)
          as ([] & w' & E3).
        rewrite E3 in E. discriminate.
      * destruct Hinv as (Hno & _). congruence.
    + exists w1. split; [exact E | now apply Hst].
Qed.

Lemma Start_returns_without_static_witness :
  neverPanics (Start envNoDiscovery) /\
  exists w', Start envNoDiscovery newWorld = Ok tt w' /\ started w' = true.
Proof.
  destruct (Start_returns_without_static envNoDiscovery) as (Hnp & Hok).
  - reflexivity.
  - repeat split.
  - split; [exact Hnp|]. apply Hok; [reflexivity | | reflexivity].
    right. eexists. reflexivity.
Defined.
